(** * MySkoda integration: sensor value mapping and credential flow

    A shallow embedding of [custom_components/myskoda/sensor.py] and
    [custom_components/myskoda/config_flow.py].

    Python values are modelled by a small value type, Python exceptions
    by an error monad, dictionaries by [gmap], the capability set of a
    vehicle by [gset].  Every sensor class of [sensor.py] becomes one
    record of methods; the methods take the entity ([self]) as their
    argument.

    Python does not enforce the annotations of the client library at run
    time, so every attribute of the snapshot may hold [None]: each field
    of the records below is an [option].  Reading an attribute of [None]
    raises [AttributeError]; ordering or dividing [None] raises
    [TypeError]; testing it for truth or for equality does not raise. *)

From Stdlib Require Import ZArith String Ascii List Floats Lia DecimalString.
From stdpp Require Import base option gmap strings.
Import ListNotations.

Local Open Scope string_scope.
Local Open Scope Z_scope.

(** ** Python values and exceptions *)

(** The exception classes that the two modules can meet.
    [OtherException] stands for any further subclass of [Exception],
    [BaseExceptionOnly] for a [BaseException] that is not an [Exception]
    (task cancellation, keyboard interrupt). *)
Inductive exn : Type :=
  | AttributeError
  | TypeError
  | KeyError
  | ZeroDivisionError
  | OverflowError
  | AssertionError
  | CannotConnect
  | AuthorizationFailedError
  | OtherException (name : string)
  | BaseExceptionOnly (name : string).

(** [isinstance(e, Exception)]. *)
Definition is_Exception (e : exn) : bool :=
  match e with
  | BaseExceptionOnly _ => false
  | _ => true
  end.

(** A computation either returns or raises. *)
Inductive result (A : Type) : Type :=
  | Ok (a : A)
  | Raise (e : exn).
Arguments Ok {A} a.
Arguments Raise {A} e.

#[global] Instance result_ret : MRet result := fun _ a => Ok a.
#[global] Instance result_bind : MBind result := fun _ _ f m =>
  match m with
  | Ok a => f a
  | Raise e => Raise e
  end.
#[global] Instance result_fmap : FMap result := fun _ _ f m =>
  match m with
  | Ok a => Ok (f a)
  | Raise e => Raise e
  end.

(** The values a sensor hands to the host. *)
Inductive pyval : Type :=
  | VNone
  | VInt (n : Z)
  | VFloat (f : float)
  | VStr (s : string)
  | VDatetime (t : Z).

(** An optional field passed through unchanged. *)
Definition of_option {A} (inj : A -> pyval) (o : option A) : pyval :=
  match o with
  | Some a => inj a
  | None => VNone
  end.

(** [o.attr] where [o] may be [None]: reading an attribute of [None]
    raises [AttributeError]. *)
Definition getattr {A B} (o : option A) (attr : A -> B) : result B :=
  match o with
  | Some a => Ok (attr a)
  | None => Raise AttributeError
  end.

(** An integer operand of [>=] or [/]: [None] there raises [TypeError]. *)
Definition int_operand (o : option Z) : result Z :=
  match o with
  | Some n => Ok n
  | None => Raise TypeError
  end.

(** [d[k]] on a dictionary. *)
Definition getitem {V} (d : gmap string V) (k : string) : result V :=
  match d !! k with
  | Some v => Ok v
  | None => Raise KeyError
  end.

(** [str.lower] on ASCII text. *)
Definition lower_ascii (c : ascii) : ascii :=
  let n := nat_of_ascii c in
  if (Nat.leb 65 n && Nat.leb n 90)%bool then ascii_of_nat (n + 32) else c.

Fixpoint lower (s : string) : string :=
  match s with
  | EmptyString => EmptyString
  | String c s' => String (lower_ascii c) (lower s')
  end.

(** [str(x)] for an optional string-valued enumeration member. *)
Definition str_option (o : option string) : string :=
  match o with
  | Some s => s
  | None => "None"
  end.

(** *** Division of integers

    [a / b] on Python integers is the quotient rounded once, to the
    nearest binary64 number, ties to the even mantissa.  The float is
    built as mantissa times a power of two: the exponent is chosen so
    that the mantissa has 53 bits, and not below -1074, the exponent of
    the smallest subnormal number. *)

(** The integer nearest to [n / d], ties to even; [d] is positive. *)
Definition round_half_even (n d : Z) : Z :=
  let q := n / d in
  let r := n mod d in
  if 2 * r <? d then q
  else if d <? 2 * r then q + 1
  else if Z.even q then q else q + 1.

(** The integer part of the binary logarithm of [a / b], for positive
    [a] and [b]. *)
Definition quotient_log2 (a b : Z) : Z :=
  let la := Z.log2 a in
  let lb := Z.log2 b in
  if a * 2 ^ lb <? b * 2 ^ la then la - lb - 1 else la - lb.

Definition float_exponent (a b : Z) : Z :=
  Z.max (quotient_log2 a b - 52) (-1074).

(** [a / b] in units of [2 ^ float_exponent a b], rounded; numerator and
    denominator are both scaled by [2 ^ 1074] to stay in the integers. *)
Definition float_mantissa (a b : Z) : Z :=
  round_half_even (a * 2 ^ 1074) (b * 2 ^ (float_exponent a b + 1074)).

(** The float of sign [sign] and magnitude [q * 2 ^ e]. *)
Definition float_of (sign : bool) (q e : Z) : float :=
  match q with
  | Zpos m => SF2Prim (S754_finite sign m e)
  | _ => SF2Prim (S754_zero sign)
  end.

(** A zero divisor raises, and so does a quotient that rounds to
    [2 ^ 1024] or more, beyond the largest float. *)
Definition int_truediv (a b : Z) : result float :=
  if b =? 0 then Raise ZeroDivisionError
  else
    let sign := xorb (a <? 0) (b <? 0) in
    if a =? 0 then Ok (float_of sign 0 0)
    else
      let q := float_mantissa (Z.abs a) (Z.abs b) in
      let e := float_exponent (Z.abs a) (Z.abs b) in
      if 2 ^ 1024 * 2 ^ 1074 <=? q * 2 ^ (e + 1074) then Raise OverflowError
      else Ok (float_of sign q e).

(** ** The vehicle snapshot (models of the client library) *)

Module CapabilityId.
(** The capability tags named by the sensors; [OTHER] covers the rest
    of the client library's enumeration. *)
Inductive t : Type :=
  | CHARGING
  | STATE
  | VEHICLE_HEALTH_INSPECTION
  | OTHER (name : string).

#[global] Instance eq_dec : EqDecision t.
Proof. solve_decision. Defined.

Definition encode (c : t) : nat + string :=
  match c with
  | CHARGING => inl 0%nat
  | STATE => inl 1%nat
  | VEHICLE_HEALTH_INSPECTION => inl 2%nat
  | OTHER s => inr s
  end.

Definition decode (x : nat + string) : t :=
  match x with
  | inl 0%nat => CHARGING
  | inl 1%nat => STATE
  | inl _ => VEHICLE_HEALTH_INSPECTION
  | inr s => OTHER s
  end.

#[global] Instance countable : Countable t.
Proof. apply (inj_countable' encode decode). intros []; reflexivity. Defined.
End CapabilityId.

Module charging.
(** Modelled from the spec: the enumeration [charging.ChargingState] of
    the client library, "an enumerated state (cable-connected / ready /
    conserving / charging)".  It is a string enumeration whose members
    print as their names; [sensor.py] names [CONNECT_CABLE] and
    [CHARGING] and lists the lower-case names as the sensor's options.
    [OTHER] stands for any further member the library may hold, under
    its name. *)
Inductive ChargingState : Type :=
  | READY_FOR_CHARGING
  | CONNECT_CABLE
  | CONSERVING
  | CHARGING
  | OTHER (name : string).

#[global] Instance ChargingState_eq_dec : EqDecision ChargingState.
Proof. solve_decision. Defined.

(** [str(state)]. *)
Definition str (s : ChargingState) : string :=
  match s with
  | READY_FOR_CHARGING => "READY_FOR_CHARGING"
  | CONNECT_CABLE => "CONNECT_CABLE"
  | CONSERVING => "CONSERVING"
  | CHARGING => "CHARGING"
  | OTHER name => name
  end.

(** [bool(state)]: a member is a string, true unless empty. *)
Definition truthy (s : ChargingState) : bool :=
  negb (String.eqb (str s) "").
End charging.

Module Battery.
Record t : Type := {
  state_of_charge_in_percent : option Z;
  remaining_cruising_range_in_meters : option Z
}.
End Battery.

Module ChargingStatus.
Record t : Type := {
  battery : option Battery.t;
  state : option charging.ChargingState;
  charge_power_in_kw : option float;
  charge_type : option string;
  remaining_time_to_fully_charged_in_minutes : option Z
}.
End ChargingStatus.

Module Settings.
Record t : Type := {
  target_state_of_charge_in_percent : option Z
}.
End Settings.

Module Charging.
Record t : Type := {
  status : option ChargingStatus.t;
  settings : option Settings.t
}.
End Charging.

Module Health.
Record t : Type := {
  mileage_in_km : option Z
}.
End Health.

Module MaintenanceReport.
Record t : Type := {
  inspection_due_in_days : option Z
}.
End MaintenanceReport.

Module Maintenance.
Record t : Type := {
  maintenance_report : option MaintenanceReport.t
}.
End Maintenance.

Module Status.
Record t : Type := {
  car_captured_timestamp : option Z
}.
End Status.

Module Info.
Record t : Type := {
  software_version : option string
}.
End Info.

Module Vehicle.
(** The snapshot: every sub-record may be absent. *)
Record t : Type := {
  info : option Info.t;
  charging : option Charging.t;
  status : option Status.t;
  health : option Health.t;
  maintenance : option Maintenance.t
}.
End Vehicle.

(** ** The entity ([self]) *)

(** Modelled from the spec: [MySkodaEntity] lives in entity.py, which is
    not among the sources.  The spec gives the mapper "a capability set
    and a vehicle snapshot handle", and says of the render mapping that
    its "retrieval itself is delegated to a helper outside this core":
    the outcome of [get_renders()] is therefore a field of the entity. *)
Record MySkodaEntity : Type := {
  vehicle : Vehicle.t;
  capabilities : gset CapabilityId.t;
  get_renders : result (gmap string string)
}.

(** Modelled from the spec: the availability check a sensor inherits from
    [MySkodaEntity] (entity.py, not among the sources): "if the vehicle's
    capability set lacks any required tag, the sensor is marked
    unavailable". *)
Definition MySkodaEntity_available
    (required : list CapabilityId.t) (self : MySkodaEntity) : bool :=
  forallb (fun c => bool_decide (c ∈ capabilities self)) required.

(** Modelled from the spec: the default of [required_capabilities] in
    entity.py, "zero or more required capabilities". *)
Definition MySkodaEntity_required_capabilities : list CapabilityId.t := [].

(** A sensor class: its description and its methods.  A class that does
    not define [icon] has the icon of its description. *)
Record MySkodaSensor : Type := {
  key : string;
  name : string;
  required_capabilities : list CapabilityId.t;
  available : MySkodaEntity -> bool;
  native_value : MySkodaEntity -> result pyval;
  icon : MySkodaEntity -> result string
}.

(** ** sensor.py *)

(** [SoftwareVersion]: the info record is read without a guard. *)
Definition SoftwareVersion_native_value (self : MySkodaEntity) : result pyval :=
  v ← getattr (Vehicle.info (vehicle self)) Info.software_version;
  mret (of_option VStr v).

Definition SoftwareVersion : MySkodaSensor := {|
  key := "software_version";
  name := "Software Version";
  required_capabilities := MySkodaEntity_required_capabilities;
  available := MySkodaEntity_available MySkodaEntity_required_capabilities;
  native_value := SoftwareVersion_native_value;
  icon := fun _ => Ok "mdi:update"
|}.

(** [ChargingSensor]: the helpers shared by the charging sensors.  A
    helper that falls off its [if] returns [None]. *)
Definition _charging (self : MySkodaEntity) : option Charging.t :=
  match Vehicle.charging (vehicle self) with
  | Some charging => Some charging
  | None => None
  end.

Definition _status (self : MySkodaEntity) : option ChargingStatus.t :=
  match _charging self with
  | Some charging =>
      match Charging.status charging with
      | Some status => Some status
      | None => None
      end
  | None => None
  end.

Definition ChargingSensor_required_capabilities : list CapabilityId.t :=
  [CapabilityId.CHARGING].

(** [BatteryPercentage]. *)
Definition BatteryPercentage_available (self : MySkodaEntity) : bool := true.

Definition BatteryPercentage_native_value (self : MySkodaEntity) : result pyval :=
  match _status self with
  | Some status =>
      percent ← getattr (ChargingStatus.battery status)
                  Battery.state_of_charge_in_percent;
      mret (of_option VInt percent)
  | None => mret VNone
  end.

(** The chain of descending threshold checks. *)
Definition battery_suffix (percent : Z) : string :=
  if percent >=? 95 then "100"
  else if percent >=? 85 then "90"
  else if percent >=? 75 then "80"
  else if percent >=? 65 then "70"
  else if percent >=? 55 then "60"
  else if percent >=? 45 then "50"
  else if percent >=? 35 then "40"
  else if percent >=? 25 then "30"
  else if percent >=? 15 then "20"
  else if percent >=? 5 then "10"
  else "outline".

(** Only the status is guarded: the battery and its percentage are read
    and compared as they come. *)
Definition BatteryPercentage_icon (self : MySkodaEntity) : result string :=
  match _status self with
  | None => Ok "mdi:battery-outline"
  | Some status =>
      percent ← getattr (ChargingStatus.battery status)
                  Battery.state_of_charge_in_percent;
      percent ← int_operand percent;
      let suffix := battery_suffix percent in
      if bool_decide (ChargingStatus.state status ≠ Some charging.CONNECT_CABLE)
      then Ok ("mdi:battery-charging-" +:+ suffix)
      else if bool_decide (suffix = "100") then Ok "mdi:battery"
      else Ok ("mdi:battery-" +:+ suffix)
  end.

Definition BatteryPercentage : MySkodaSensor := {|
  key := "battery_percentage";
  name := "Battery Percentage";
  required_capabilities := ChargingSensor_required_capabilities;
  available := BatteryPercentage_available;
  native_value := BatteryPercentage_native_value;
  icon := BatteryPercentage_icon
|}.

(** [ChargingPower]. *)
Definition ChargingPower_native_value (self : MySkodaEntity) : result pyval :=
  match _status self with
  | Some status => mret (of_option VFloat (ChargingStatus.charge_power_in_kw status))
  | None => mret VNone
  end.

Definition ChargingPower : MySkodaSensor := {|
  key := "charging_power";
  name := "Charging Power";
  required_capabilities := ChargingSensor_required_capabilities;
  available := MySkodaEntity_available ChargingSensor_required_capabilities;
  native_value := ChargingPower_native_value;
  icon := fun _ => Ok "mdi:lightning-bolt"
|}.

(** [RemainingDistance]. *)
Definition RemainingDistance_native_value (self : MySkodaEntity) : result pyval :=
  match _status self with
  | Some status =>
      meters ← getattr (ChargingStatus.battery status)
                 Battery.remaining_cruising_range_in_meters;
      meters ← int_operand meters;
      VFloat <$> int_truediv meters 1000
  | None => mret VNone
  end.

Definition RemainingDistance : MySkodaSensor := {|
  key := "range";
  name := "Range";
  required_capabilities := ChargingSensor_required_capabilities;
  available := MySkodaEntity_available ChargingSensor_required_capabilities;
  native_value := RemainingDistance_native_value;
  icon := fun _ => Ok "mdi:speedometer"
|}.

(** [TargetBatteryPercentage]: read from the charging settings. *)
Definition TargetBatteryPercentage_native_value (self : MySkodaEntity) : result pyval :=
  match _charging self with
  | Some charging =>
      target ← getattr (Charging.settings charging)
                 Settings.target_state_of_charge_in_percent;
      mret (of_option VInt target)
  | None => mret VNone
  end.

Definition TargetBatteryPercentage : MySkodaSensor := {|
  key := "target_battery_percentage";
  name := "Target Battery Percentage";
  required_capabilities := ChargingSensor_required_capabilities;
  available := MySkodaEntity_available ChargingSensor_required_capabilities;
  native_value := TargetBatteryPercentage_native_value;
  icon := fun _ => Ok "mdi:percent"
|}.

(** [Mileage]. *)
Definition Mileage_native_value (self : MySkodaEntity) : result pyval :=
  match Vehicle.health (vehicle self) with
  | Some health => mret (of_option VInt (Health.mileage_in_km health))
  | None => mret VNone
  end.

Definition Mileage : MySkodaSensor := {|
  key := "milage";
  name := "Milage";
  required_capabilities := [CapabilityId.VEHICLE_HEALTH_INSPECTION];
  available := MySkodaEntity_available [CapabilityId.VEHICLE_HEALTH_INSPECTION];
  native_value := Mileage_native_value;
  icon := fun _ => Ok "mdi:counter"
|}.

(** [InspectionInterval]: the maintenance record is read without a guard,
    its report with one. *)
Definition InspectionInterval_native_value (self : MySkodaEntity) : result pyval :=
  report ← getattr (Vehicle.maintenance (vehicle self)) Maintenance.maintenance_report;
  match report with
  | Some maintenance_report =>
      mret (of_option VInt (MaintenanceReport.inspection_due_in_days maintenance_report))
  | None => mret VNone
  end.

Definition InspectionInterval : MySkodaSensor := {|
  key := "inspection";
  name := "Inspection";
  required_capabilities := [CapabilityId.VEHICLE_HEALTH_INSPECTION];
  available := MySkodaEntity_available [CapabilityId.VEHICLE_HEALTH_INSPECTION];
  native_value := InspectionInterval_native_value;
  icon := fun _ => Ok "mdi:car-wrench"
|}.

(** [ChargeType]. *)
Definition ChargeType_native_value (self : MySkodaEntity) : result pyval :=
  match _status self with
  | Some status => mret (VStr (lower (str_option (ChargingStatus.charge_type status))))
  | None => mret VNone
  end.

Definition ChargeType_icon (self : MySkodaEntity) : result string :=
  match _status self with
  | Some status =>
      if bool_decide (ChargingStatus.charge_type status = Some "DC")
      then Ok "mdi:ev-plug-ccs2"
      else Ok "mdi:ev-plug-type2"
  | None => Ok "mdi:ev-plug-type2"
  end.

Definition ChargeType : MySkodaSensor := {|
  key := "charge_type";
  name := "Charge Type";
  required_capabilities := ChargingSensor_required_capabilities;
  available := MySkodaEntity_available ChargingSensor_required_capabilities;
  native_value := ChargeType_native_value;
  icon := ChargeType_icon
|}.

(** [ChargingState]. *)
Definition _attr_options : list string :=
  ["connect_cable"; "ready_for_charging"; "conserving"; "charging"].

Definition ChargingState_native_value (self : MySkodaEntity) : result pyval :=
  match _status self with
  | Some status =>
      match ChargingStatus.state status with
      | Some state =>
          if charging.truthy state
          then mret (VStr (lower (charging.str state)))
          else mret VNone
      | None => mret VNone
      end
  | None => mret VNone
  end.

Definition ChargingState_icon (self : MySkodaEntity) : result string :=
  match _status self with
  | Some status =>
      if bool_decide (ChargingStatus.state status = Some charging.CONNECT_CABLE)
      then Ok "mdi:power-plug-off"
      else if bool_decide (ChargingStatus.state status = Some charging.CHARGING)
      then Ok "mdi:power-plug-battery"
      else Ok "mdi:power-plug"
  | None => Ok "mdi:power-plug"
  end.

Definition ChargingState : MySkodaSensor := {|
  key := "charging_state";
  name := "Charging State";
  required_capabilities := ChargingSensor_required_capabilities;
  available := MySkodaEntity_available ChargingSensor_required_capabilities;
  native_value := ChargingState_native_value;
  icon := ChargingState_icon
|}.

(** [RemainingChargingTime]. *)
Definition RemainingChargingTime_native_value (self : MySkodaEntity) : result pyval :=
  match _status self with
  | Some status =>
      mret (of_option VInt
              (ChargingStatus.remaining_time_to_fully_charged_in_minutes status))
  | None => mret VNone
  end.

Definition RemainingChargingTime : MySkodaSensor := {|
  key := "remaining_charging_time";
  name := "Remaining Charging Time";
  required_capabilities := ChargingSensor_required_capabilities;
  available := MySkodaEntity_available ChargingSensor_required_capabilities;
  native_value := RemainingChargingTime_native_value;
  icon := fun _ => Ok "mdi:timer"
|}.

(** [LastUpdated]. *)
Definition LastUpdated_native_value (self : MySkodaEntity) : result pyval :=
  match Vehicle.status (vehicle self) with
  | Some status => mret (of_option VDatetime (Status.car_captured_timestamp status))
  | None => mret VNone
  end.

Definition LastUpdated : MySkodaSensor := {|
  key := "car_captured";
  name := "Last Updated";
  required_capabilities := [CapabilityId.STATE];
  available := MySkodaEntity_available [CapabilityId.STATE];
  native_value := LastUpdated_native_value;
  icon := fun _ => Ok "mdi:clock"
|}.

(** [MainRender]: [dict.get] gives [None] for a missing key. *)
Definition MainRender_native_value (self : MySkodaEntity) : result pyval :=
  renders ← get_renders self;
  mret (of_option VStr (renders !! "main")).

Definition MainRender : MySkodaSensor := {|
  key := "render_url_main";
  name := "Main Render URL";
  required_capabilities := MySkodaEntity_required_capabilities;
  available := MySkodaEntity_available MySkodaEntity_required_capabilities;
  native_value := MainRender_native_value;
  icon := fun _ => Ok "mdi:file-image"
|}.

(** The sensor classes derived from [ChargingSensor]. *)
Definition charging_sensors : list MySkodaSensor :=
  [BatteryPercentage; ChargingPower; RemainingDistance;
   TargetBatteryPercentage; ChargeType; ChargingState; RemainingChargingTime].

(** All the sensor classes of the module. *)
Definition sensors : list MySkodaSensor :=
  [SoftwareVersion; BatteryPercentage; ChargingPower; RemainingDistance;
   TargetBatteryPercentage; Mileage; InspectionInterval; ChargeType;
   ChargingState; RemainingChargingTime; LastUpdated; MainRender].

(** [async_setup_entry]: the classes handed to [add_supported_entities],
    in the order of the source. *)
Definition available_entities : list MySkodaSensor :=
  [BatteryPercentage; ChargeType; ChargingPower; ChargingState; LastUpdated;
   MainRender; Mileage; RemainingChargingTime; RemainingDistance;
   SoftwareVersion; TargetBatteryPercentage].

(** ** config_flow.py *)

(** The two key names come from the host's constants module. *)
Definition CONF_USERNAME : string := "username".
Definition CONF_PASSWORD : string := "password".

(** A config entry as the host keeps it. *)
Record ConfigEntry : Type := {
  entry_id : string;
  data : gmap string string
}.

(** What a step hands back to the host: each constructor is the host
    helper the step returns the result of.  Every form of this module
    carries the same schema, [STEP_USER_DATA_SCHEMA]; an omitted
    [errors] or [description_placeholders] argument is [None]. *)
Inductive ConfigFlowResult : Type :=
  | async_show_form (step_id : string)
      (errors : option (gmap string string))
      (description_placeholders : option (gmap string string))
  | async_create_entry (title : string) (data : gmap string string)
  | async_update_reload_and_abort (entry : ConfigEntry) (data : gmap string string).

(** The flow object.  [__init__] assigns [_reauth_entry] only; [_data] and
    [reauth_entry] are attributes that the methods read but the class
    never assigns, so each is [None] when the instance lacks it. *)
Record ConfigFlow : Type := {
  _reauth_entry : option ConfigEntry;
  _data : option (gmap string string);
  reauth_entry : option ConfigEntry
}.

(** [self.attr] for an attribute the instance may lack. *)
Definition self_attr {A} (attr : option A) : result A :=
  match attr with
  | Some a => Ok a
  | None => Raise AttributeError
  end.

Section Flow.
(** The client library's [connect(email, password)]: the only call that
    reaches the backend. *)
Variable connect : string -> string -> result unit.

Definition validate_input (data : gmap string string) : result unit :=
  email ← getitem data "email";
  password ← getitem data "password";
  connect email password.

Definition async_step_user (user_input : option (gmap string string))
    : result ConfigFlowResult :=
  match user_input with
  | None => Ok (async_show_form "user" None None)
  | Some user_input =>
      let errors : gmap string string := ∅ in
      match validate_input user_input with
      | Ok _ =>
          title ← getitem user_input "email";
          Ok (async_create_entry title user_input)
      | Raise e =>
          let handled (errors : gmap string string) :=
            (* Only called if there was an error. *)
            Ok (async_show_form "user" (Some errors) None) in
          match e with
          | CannotConnect => handled (<["base" := "cannot_connect"]> errors)
          | AuthorizationFailedError => handled (<["base" := "invalid_auth"]> errors)
          | _ =>
              if is_Exception e then handled (<["base" := "unknown"]> errors)
              else Raise e
          end
      end
  end.

(** The method mutates [self._data]; it returns the flow object as it
    leaves it together with its outcome.  A method that falls off its
    end returns [None]. *)
Definition _async_step_reauth_confirm
    (self : ConfigFlow) (user_input : option (gmap string string))
    : ConfigFlow * result (option ConfigFlowResult) :=
  let errors : gmap string string := ∅ in
  match _reauth_entry self with
  | None => (self, Raise AssertionError)
  | Some _ =>
      match user_input with
      | None =>
          (self,
           _data ← self_attr (_data self);
           username ← getitem _data CONF_USERNAME;
           Ok (Some (async_show_form "reauth_confirm" None
                       (Some {[CONF_USERNAME := username]}))))
      | Some user_input =>
          match getitem user_input CONF_PASSWORD with
          | Raise e => (self, Raise e)
          | Ok password =>
              match self_attr (_data self) with
              | Raise e => (self, Raise e)
              | Ok _data =>
                  let self := {| _reauth_entry := _reauth_entry self;
                                 _data := Some (<[CONF_PASSWORD := password]> _data);
                                 reauth_entry := reauth_entry self |} in
                  match validate_input user_input with
                  | Ok _ =>
                      (self,
                       entry ← self_attr (reauth_entry self);
                       Ok (Some (async_update_reload_and_abort entry user_input)))
                  | Raise e =>
                      let fall_through (errors : gmap string string) :=
                        (self, Ok None) in
                      match e with
                      | CannotConnect =>
                          fall_through (<["base" := "cannot_connect"]> errors)
                      | AuthorizationFailedError =>
                          fall_through (<["base" := "invalid_auth"]> errors)
                      | _ =>
                          if is_Exception e
                          then fall_through (<["base" := "unknown"]> errors)
                          else (self, Raise e)
                      end
                  end
              end
          end
      end
  end.

(** [async_step_reauth]: [self.context] and the registry of config
    entries belong to the host; [async_get_entry] gives [None] for an
    unknown id. *)
Definition async_step_reauth
    (config_entries : gmap string ConfigEntry) (context : gmap string string)
    (self : ConfigFlow) : ConfigFlow * result (option ConfigFlowResult) :=
  match getitem context "entry_id" with
  | Raise e => (self, Raise e)
  | Ok id =>
      let self := {| _reauth_entry := config_entries !! id;
                     _data := _data self;
                     reauth_entry := reauth_entry self |} in
      _async_step_reauth_confirm self None
  end.
End Flow.

(** [ConfigFlow()]: the object as [__init__] leaves it. *)
Definition ConfigFlow_init : ConfigFlow := {|
  _reauth_entry := None;
  _data := None;
  reauth_entry := None
|}.

(** ** issues.py *)

Definition _get_issue_id (entry_id : string) : string :=
  "new_tandc_" +:+ entry_id.

(** The severities of the host's issue registry. *)
Inductive IssueSeverity : Type :=
  | CRITICAL
  | ERROR
  | WARNING.

(** An issue as the module creates it. *)
Record Issue : Type := {
  is_fixable : bool;
  is_persistent : bool;
  severity : IssueSeverity;
  learn_more_url : string;
  translation_key : string;
  issue_data : gmap string string
}.

Section Issues.
(** The integration's domain name, a constant of const.py. *)
Variable DOMAIN : string.

(** The host's issue registry is a finite map keyed by domain and issue
    id: [async_create_issue] stores the issue under its key, replacing
    an earlier one, and [async_delete_issue] removes the key. *)
Definition async_create_tnc_issue
    (hass : gmap (string * string) Issue) (entry_id : string)
    : gmap (string * string) Issue :=
  <[(DOMAIN, _get_issue_id entry_id) :=
      {| is_fixable := false;
         is_persistent := false;
         severity := ERROR;
         learn_more_url := "https://skodaid.vwgroup.io/landing-page";
         translation_key := "new_tandc";
         issue_data := {["entry_id" := entry_id]} |}]> hass.

Definition async_delete_tnc_issue
    (hass : gmap (string * string) Issue) (entry_id : string)
    : gmap (string * string) Issue :=
  delete (DOMAIN, _get_issue_id entry_id) hass.
End Issues.

(** ** Notions used by the statements *)

(** An icon reference names an icon of the "mdi" set. *)
Definition is_icon_ref (s : string) : bool := String.prefix "mdi:" s.

(** The banding as the specification words it: ten-point buckets, the
    percentage rounded to the nearest ten (halves upwards) and capped at
    one hundred, with "outline" below five. *)
Definition ten_point_bucket (percent : Z) : string :=
  if percent <? 5 then "outline"
  else NilZero.string_of_int (Z.to_int (Z.min 100 (10 * ((percent + 5) / 10)))).

(** The charging status cannot be reached from the snapshot. *)
Definition status_unreachable (v : Vehicle.t) : Prop :=
  Vehicle.charging v = None
  \/ exists c, Vehicle.charging v = Some c /\ Charging.status c = None.

(** What a charging status reads from its battery, when both the
    battery and the field are there. *)
Definition reading {A} (status : ChargingStatus.t)
    (field : Battery.t -> option A) : option A :=
  ChargingStatus.battery status ≫= field.

(** The four states the claims and the sensor's options name. *)
Definition known_states : list charging.ChargingState :=
  [charging.CONNECT_CABLE; charging.READY_FOR_CHARGING;
   charging.CONSERVING; charging.CHARGING].

(** [q * 2 ^ e] is a binary64 number nearest to [a / b], for positive [a]
    and [b]: the exponent is not below that of the subnormal numbers,
    the mantissa [q] has 53 bits unless the number is subnormal, [a / b]
    is at most half a unit of the last place away, and on a tie the
    mantissa is even.  Each inequality between [q * 2 ^ e] and [a / b] is
    multiplied by [b * 2 ^ 1074], which keeps it in the integers. *)
Definition nearest_binary64 (a b q e : Z) : Prop :=
  -1074 <= e
  /\ 0 <= q <= 2 ^ 53
  /\ (e = -1074 \/ 2 ^ 52 <= q)
  /\ 2 * Z.abs (q * (b * 2 ^ (e + 1074)) - a * 2 ^ 1074) <= b * 2 ^ (e + 1074)
  /\ (2 * Z.abs (q * (b * 2 ^ (e + 1074)) - a * 2 ^ 1074) = b * 2 ^ (e + 1074) ->
      Z.even q = true).

(** Sample snapshots for the examples. *)
Definition sample_status (percent meters : Z)
    (state : option charging.ChargingState) : ChargingStatus.t := {|
  ChargingStatus.battery := Some {|
    Battery.state_of_charge_in_percent := Some percent;
    Battery.remaining_cruising_range_in_meters := Some meters |};
  ChargingStatus.state := state;
  ChargingStatus.charge_power_in_kw := None;
  ChargingStatus.charge_type := Some "AC";
  ChargingStatus.remaining_time_to_fully_charged_in_minutes := Some 30
|}.

(** A status whose battery reports a range but no percentage. *)
Definition status_without_percent : ChargingStatus.t := {|
  ChargingStatus.battery := Some {|
    Battery.state_of_charge_in_percent := None;
    Battery.remaining_cruising_range_in_meters := Some 123000 |};
  ChargingStatus.state := Some charging.CONNECT_CABLE;
  ChargingStatus.charge_power_in_kw := None;
  ChargingStatus.charge_type := Some "AC";
  ChargingStatus.remaining_time_to_fully_charged_in_minutes := None
|}.

(** A status with no battery record. *)
Definition status_without_battery : ChargingStatus.t := {|
  ChargingStatus.battery := None;
  ChargingStatus.state := Some charging.CONNECT_CABLE;
  ChargingStatus.charge_power_in_kw := None;
  ChargingStatus.charge_type := Some "AC";
  ChargingStatus.remaining_time_to_fully_charged_in_minutes := None
|}.

Definition entity_of (charging : option Charging.t)
    (caps : gset CapabilityId.t) : MySkodaEntity := {|
  vehicle := {|
    Vehicle.info := Some {| Info.software_version := Some "3.2" |};
    Vehicle.charging := charging;
    Vehicle.status := None;
    Vehicle.health := None;
    Vehicle.maintenance := Some {| Maintenance.maintenance_report := None |} |};
  capabilities := caps;
  get_renders := Ok ∅
|}.

Definition status_entity (status : ChargingStatus.t) : MySkodaEntity :=
  entity_of
    (Some {| Charging.status := Some status;
             Charging.settings :=
               Some {| Settings.target_state_of_charge_in_percent := Some 80 |} |})
    {[ CapabilityId.CHARGING ]}.

Definition charging_entity (percent meters : Z)
    (state : option charging.ChargingState) : MySkodaEntity :=
  status_entity (sample_status percent meters state).

(** A snapshot with no sub-record at all. *)
Definition bare_entity : MySkodaEntity := {|
  vehicle := {|
    Vehicle.info := None;
    Vehicle.charging := None;
    Vehicle.status := None;
    Vehicle.health := None;
    Vehicle.maintenance := None |};
  capabilities := ∅;
  get_renders := Ok ∅
|}.

(** Sample data for the examples. *)
Definition sample_input (password : string) : gmap string string :=
  <["email" := "driver@example.org"]> (<["password" := password]> ∅).

Definition sample_entry : ConfigEntry := {|
  entry_id := "entry-1";
  data := sample_input "old"
|}.

(** A backend that answers every [connect] the same way. *)
Definition backend (answer : result unit) : string -> string -> result unit :=
  fun _ _ => answer.

(** The error code a shown form carries. *)
Definition form_error (r : result ConfigFlowResult) : option string :=
  match r with
  | Ok (async_show_form _ (Some errors) _) => errors !! "base"
  | _ => None
  end.

(** The flow object as the class builds it for a reauth of
    [sample_entry]: [__init__], then the assignment of
    [async_step_reauth]. *)
Definition reauth_flow : ConfigFlow := {|
  _reauth_entry := Some sample_entry;
  _data := None;
  reauth_entry := None
|}.

(** The same object, granted a [_data] attribute holding the user name. *)
Definition reauth_flow_with_data : ConfigFlow := {|
  _reauth_entry := Some sample_entry;
  _data := Some {[CONF_USERNAME := "driver@example.org"]};
  reauth_entry := None
|}.

(** The three error codes of the forms. *)
Definition error_codes : list string :=
  ["cannot_connect"; "invalid_auth"; "unknown"].

(** The icons [BatteryPercentage.icon] can name. *)
Definition battery_icons : list string :=
  ["mdi:battery-outline"; "mdi:battery-10"; "mdi:battery-20"; "mdi:battery-30";
   "mdi:battery-40"; "mdi:battery-50"; "mdi:battery-60"; "mdi:battery-70";
   "mdi:battery-80"; "mdi:battery-90"; "mdi:battery";
   "mdi:battery-charging-outline"; "mdi:battery-charging-10";
   "mdi:battery-charging-20"; "mdi:battery-charging-30";
   "mdi:battery-charging-40"; "mdi:battery-charging-50";
   "mdi:battery-charging-60"; "mdi:battery-charging-70";
   "mdi:battery-charging-80"; "mdi:battery-charging-90";
   "mdi:battery-charging-100"].

(** A charging record that has settings but no status. *)
Definition settings_only (target : Z) : Charging.t := {|
  Charging.status := None;
  Charging.settings :=
    Some {| Settings.target_state_of_charge_in_percent := Some target |}
|}.

(** Pairs on which the division is compared with the division of the
    standard library's binary64 specification. *)
Definition division_samples : list (Z * Z) :=
  [(123000, 1000); (1, 1000); (1, 3); (-7, 3); (0, -5); (7, -2);
   (9007199254740993, 1); (9007199254740995, 1); (2 ^ 53 + 1, 2);
   (123456789012345678901234567890, 1000); (1, 2 ^ 1074); (3, 2 ^ 1075);
   (1, 2 ^ 1075); (2 ^ 1024, 1); (2 ^ 1024 - 2 ^ 970, 1);
   (2 ^ 1024 - 2 ^ 970 - 1, 1); (2 ^ 2000 + 12345, 2 ^ 1990 + 7)].

(** The division through [SFdiv] of the standard library. *)
Definition Z2SF_exact (z : Z) : spec_float :=
  match z with
  | Z0 => S754_zero false
  | Zpos p => S754_finite false p 0
  | Zneg p => S754_finite true p 0
  end.

Definition SFdiv_truediv (a b : Z) : result float :=
  match SFdiv prec emax (Z2SF_exact a) (Z2SF_exact b) with
  | S754_infinity _ => Raise OverflowError
  | q => Ok (SF2Prim q)
  end.

Definition same_float (x y : result float) : bool :=
  match x, y with
  | Ok f, Ok g =>
      match Prim2SF f, Prim2SF g with
      | S754_zero s, S754_zero t => Bool.eqb s t
      | S754_finite s m e, S754_finite t n k =>
          Bool.eqb s t && Pos.eqb m n && Z.eqb e k
      | _, _ => false
      end
  | Raise OverflowError, Raise OverflowError => true
  | _, _ => false
  end.

(** ** Properties of the division *)

Lemma round_half_even_nearest n d :
  0 < d ->
  2 * Z.abs (round_half_even n d * d - n) <= d
  /\ (2 * Z.abs (round_half_even n d * d - n) = d ->
      Z.even (round_half_even n d) = true).
Proof.
  intros Hd. unfold round_half_even.
  pose proof (Z.div_mod n d ltac:(lia)) as Hdm.
  pose proof (Z.mod_pos_bound n d Hd) as Hr.
  set (q := n / d) in *. set (r := n mod d) in *.
  destruct (Z.ltb_spec (2 * r) d) as [H1 | H1].
  - split; [nia | intros H; nia].
  - destruct (Z.ltb_spec d (2 * r)) as [H2 | H2].
    + split; [nia | intros H; nia].
    + destruct (Z.even q) eqn:He.
      * split; [nia | intros _; exact He].
      * split; [nia|]. intros _.
        rewrite Z.even_add, He. reflexivity.
Qed.

Lemma round_half_even_bounds n d lo hi :
  0 < d ->
  lo * d <= n -> n <= hi * d ->
  lo <= round_half_even n d <= hi.
Proof.
  intros Hd Hlo Hhi. unfold round_half_even.
  pose proof (Z.div_mod n d ltac:(lia)) as Hdm.
  pose proof (Z.mod_pos_bound n d Hd) as Hr.
  set (q := n / d) in *. set (r := n mod d) in *.
  assert (Hq : lo <= q) by nia.
  assert (Hq' : q + 1 <= hi \/ r = 0) by nia.
  destruct (Z.ltb_spec (2 * r) d); [nia|].
  destruct (Z.ltb_spec d (2 * r)); [nia|].
  destruct (Z.even q); nia.
Qed.

Lemma pow2_le x y : 0 <= x <= y -> 2 ^ x <= 2 ^ y.
Proof. intros H. apply Z.pow_le_mono_r; lia. Qed.

(** [quotient_log2 a b = L] means [2 ^ L <= a / b < 2 ^ (L + 1)]; the
    powers are split over both sides so that no exponent is negative. *)
Lemma quotient_log2_spec a b u v :
  0 < a -> 0 < b -> 0 <= u -> 0 <= v ->
  (v - u = quotient_log2 a b -> b * 2 ^ v <= a * 2 ^ u)
  /\ (v - u = quotient_log2 a b + 1 -> a * 2 ^ u < b * 2 ^ v).
Proof.
  intros Ha Hb Hu Hv. unfold quotient_log2.
  pose proof (Z.log2_spec a Ha) as [Hla1 Hla2].
  pose proof (Z.log2_spec b Hb) as [Hlb1 Hlb2].
  pose proof (Z.log2_nonneg a) as Hla. pose proof (Z.log2_nonneg b) as Hlb.
  set (la := Z.log2 a) in *. set (lb := Z.log2 b) in *.
  rewrite Z.pow_succ_r in Hla2, Hlb2 by assumption.
  assert (Hpa : 0 < 2 ^ la) by (apply Z.pow_pos_nonneg; lia).
  assert (Hpb : 0 < 2 ^ lb) by (apply Z.pow_pos_nonneg; lia).
  assert (Hpu : 0 < 2 ^ u) by (apply Z.pow_pos_nonneg; lia).
  assert (Hpv : 0 < 2 ^ v) by (apply Z.pow_pos_nonneg; lia).
  destruct (Z.ltb_spec (a * 2 ^ lb) (b * 2 ^ la)) as [Hc | Hc]; split; intros Hvu.
  - assert (Heq : 2 ^ v * 2 ^ lb * 2 = 2 ^ u * 2 ^ la).
    { replace (2 ^ u * 2 ^ la) with (2 ^ (u + la)) by (rewrite Z.pow_add_r by lia; ring).
      replace (u + la) with (v + lb + 1) by lia.
      rewrite !Z.pow_add_r by lia. change (2 ^ 1) with 2. ring. }
    nia.
  - assert (Heq : 2 ^ v * 2 ^ lb = 2 ^ u * 2 ^ la).
    { rewrite <- !Z.pow_add_r by lia. f_equal. lia. }
    nia.
  - assert (Heq : 2 ^ v * 2 ^ lb = 2 ^ u * 2 ^ la).
    { rewrite <- !Z.pow_add_r by lia. f_equal. lia. }
    nia.
  - assert (Heq : 2 ^ v * 2 ^ lb = 2 ^ u * 2 ^ la * 2).
    { replace (2 ^ v * 2 ^ lb) with (2 ^ (v + lb)) by (rewrite Z.pow_add_r by lia; ring).
      replace (v + lb) with (u + la + 1) by lia.
      rewrite !Z.pow_add_r by lia. change (2 ^ 1) with 2. ring. }
    nia.
Qed.

Lemma quotient_log2_lt a b k :
  0 < a -> 0 < b -> 0 <= k -> a < b * 2 ^ k -> quotient_log2 a b < k.
Proof.
  intros Ha Hb Hk Hlt.
  destruct (Z.lt_ge_cases (quotient_log2 a b) k) as [H | H]; [exact H | exfalso].
  pose proof (quotient_log2_spec a b 0 (quotient_log2 a b) Ha Hb ltac:(lia) ltac:(lia)) as [Hl _].
  specialize (Hl ltac:(lia)). rewrite Z.pow_0_r in Hl.
  pose proof (pow2_le k (quotient_log2 a b) ltac:(lia)). nia.
Qed.

Lemma quotient_log2_ge a b k :
  0 < a -> 0 < b -> 0 <= k -> b <= a * 2 ^ k -> - k <= quotient_log2 a b.
Proof.
  intros Ha Hb Hk Hle.
  destruct (Z.le_gt_cases (- k) (quotient_log2 a b)) as [H | H]; [exact H | exfalso].
  pose proof (quotient_log2_spec a b (- quotient_log2 a b - 1) 0 Ha Hb
                ltac:(lia) ltac:(lia)) as [_ Hu].
  specialize (Hu ltac:(lia)). rewrite Z.pow_0_r in Hu.
  pose proof (pow2_le k (- quotient_log2 a b - 1) ltac:(lia)). nia.
Qed.

Lemma float_exponent_ge a b : -1074 <= float_exponent a b.
Proof. unfold float_exponent. lia. Qed.

Lemma float_mantissa_bounds a b :
  0 < a -> 0 < b ->
  0 <= float_mantissa a b <= 2 ^ 53
  /\ (float_exponent a b = -1074 \/ 2 ^ 52 <= float_mantissa a b).
Proof.
  intros Ha Hb.
  pose proof (float_exponent_ge a b) as He.
  unfold float_mantissa.
  set (e := float_exponent a b) in *.
  set (L := quotient_log2 a b) in *.
  assert (HeL : e = Z.max (L - 52) (-1074)) by reflexivity.
  assert (Hd : 0 < b * 2 ^ (e + 1074)).
  { apply Z.mul_pos_pos; [lia | apply Z.pow_pos_nonneg; lia]. }
  assert (Hn : 0 <= a * 2 ^ 1074)
    by (apply Z.mul_nonneg_nonneg; [lia | apply Z.pow_nonneg; lia]).
  assert (Hup : a * 2 ^ 1074 <= 2 ^ 53 * (b * 2 ^ (e + 1074))).
  { replace (2 ^ 53 * (b * 2 ^ (e + 1074))) with (b * 2 ^ (e + 1127))
      by (replace (e + 1127) with (53 + (e + 1074)) by lia;
          rewrite Z.pow_add_r by lia; ring).
    destruct (Z.le_gt_cases 0 (L + 1075)) as [Hs | Hs].
    - pose proof (quotient_log2_spec a b 1074 (L + 1075) Ha Hb ltac:(lia) Hs) as [_ H].
      specialize (H ltac:(unfold L; lia)).
      pose proof (pow2_le (L + 1075) (e + 1127) ltac:(lia)). nia.
    - pose proof (quotient_log2_spec a b (- L - 1) 0 Ha Hb ltac:(lia) ltac:(lia)) as [_ H].
      specialize (H ltac:(unfold L; lia)). rewrite Z.pow_0_r in H.
      pose proof (pow2_le 1074 (- L - 1) ltac:(lia)).
      assert (1 <= 2 ^ (e + 1127)) by (change 1 with (2 ^ 0); apply pow2_le; lia).
      nia. }
  split.
  - apply round_half_even_bounds; [exact Hd | lia | lia].
  - destruct (Z.le_gt_cases (-1074) (L - 52)) as [Hnorm | Hsub]; [right | left; lia].
    assert (Hee : e = L - 52) by lia.
    apply (round_half_even_bounds _ _ (2 ^ 52) (2 ^ 53) Hd); [|lia].
    replace (2 ^ 52 * (b * 2 ^ (e + 1074))) with (b * 2 ^ (L + 1074))
      by (replace (L + 1074) with (52 + (e + 1074)) by lia;
          rewrite Z.pow_add_r by lia; ring).
    pose proof (quotient_log2_spec a b 1074 (L + 1074) Ha Hb ltac:(lia) ltac:(lia)) as [H _].
    apply H. unfold L. lia.
Qed.

(** The mantissa and the exponent give a nearest binary64 number. *)
Lemma float_nearest a b :
  0 < a -> 0 < b ->
  nearest_binary64 a b (float_mantissa a b) (float_exponent a b).
Proof.
  intros Ha Hb. unfold nearest_binary64.
  pose proof (float_exponent_ge a b) as He.
  pose proof (float_mantissa_bounds a b Ha Hb) as [Hq Hn].
  split; [exact He|]. split; [exact Hq|]. split; [exact Hn|].
  apply round_half_even_nearest.
  apply Z.mul_pos_pos; [lia | apply Z.pow_pos_nonneg; lia].
Qed.

(** A quotient that is an integer below [2 ^ 53] is not rounded. *)
Lemma float_mantissa_exact b k :
  0 < b -> 0 < k < 2 ^ 53 ->
  float_exponent (b * k) b <= 0
  /\ float_mantissa (b * k) b = k * 2 ^ (- float_exponent (b * k) b).
Proof.
  intros Hb Hk.
  pose proof (float_exponent_ge (b * k) b) as Hge.
  assert (HL : quotient_log2 (b * k) b < 53).
  { apply quotient_log2_lt; nia. }
  assert (He : float_exponent (b * k) b <= 0) by (unfold float_exponent; lia).
  split; [exact He|].
  unfold float_mantissa, round_half_even.
  set (e := float_exponent (b * k) b) in *.
  assert (Hd : 0 < b * 2 ^ (e + 1074)).
  { apply Z.mul_pos_pos; [lia | apply Z.pow_pos_nonneg; lia]. }
  assert (Hn : b * k * 2 ^ 1074 = k * 2 ^ (- e) * (b * 2 ^ (e + 1074))).
  { replace 1074 with (- e + (e + 1074)) at 1 by lia.
    rewrite Z.pow_add_r by lia. ring. }
  rewrite Hn. rewrite Z.div_mul by lia. rewrite Z.mod_mul by lia.
  destruct (Z.ltb_spec (2 * 0) (b * 2 ^ (e + 1074))); [reflexivity | lia].
Qed.

(** Below [2 ^ 1000] in magnitude a quotient does not overflow, and the
    float returned is the mantissa times two to the exponent. *)
Lemma int_truediv_Ok a b :
  a <> 0 -> b <> 0 -> Z.abs a < Z.abs b * 2 ^ 1000 ->
  int_truediv a b
    = Ok (float_of (xorb (a <? 0) (b <? 0))
            (float_mantissa (Z.abs a) (Z.abs b))
            (float_exponent (Z.abs a) (Z.abs b))).
Proof.
  intros Ha Hb Hlt. unfold int_truediv.
  destruct (Z.eqb_spec b 0); [contradiction|].
  destruct (Z.eqb_spec a 0); [contradiction|].
  assert (Hpa : 0 < Z.abs a) by lia. assert (Hpb : 0 < Z.abs b) by lia.
  pose proof (float_mantissa_bounds _ _ Hpa Hpb) as [[_ Hq] _].
  pose proof (float_exponent_ge (Z.abs a) (Z.abs b)) as Hge.
  pose proof (quotient_log2_lt _ _ 1000 Hpa Hpb ltac:(lia) Hlt) as HL.
  assert (He : float_exponent (Z.abs a) (Z.abs b) <= 947)
    by (unfold float_exponent; lia).
  set (q := float_mantissa (Z.abs a) (Z.abs b)) in *.
  set (e := float_exponent (Z.abs a) (Z.abs b)) in *.
  cbv zeta.
  destruct (Z.leb_spec (2 ^ 1024 * 2 ^ 1074) (q * 2 ^ (e + 1074))) as [Hov | _];
    [exfalso | reflexivity].
  pose proof (pow2_le (e + 1074) 2021 ltac:(lia)) as Hp.
  assert (H0 : 0 < 2 ^ (e + 1074)) by (apply Z.pow_pos_nonneg; lia).
  assert (Hbig : 2 ^ 53 * 2 ^ 2021 < 2 ^ 1024 * 2 ^ 1074).
  { rewrite <- !Z.pow_add_r by lia. apply Z.pow_lt_mono_r; lia. }
  nia.
Qed.

Lemma float_of_pos sign q e :
  0 < q -> float_of sign q e = SF2Prim (S754_finite sign (Z.to_pos q) e).
Proof. destruct q; try lia. reflexivity. Qed.

(** On the sample pairs the division agrees with the division of the
    standard library's binary64 specification. *)
Lemma int_truediv_agrees_with_SFdiv :
  forallb (fun '(a, b) => same_float (int_truediv a b) (SFdiv_truediv a b))
    division_samples = true.
Proof. vm_compute. reflexivity. Qed.

(** ** Properties of the sensor mapper *)

Lemma _status_Some self c st :
  Vehicle.charging (vehicle self) = Some c ->
  Charging.status c = Some st ->
  _status self = Some st.
Proof. intros Hc Hs. unfold _status, _charging. rewrite Hc, Hs. reflexivity. Qed.

Lemma _status_unreachable self :
  status_unreachable (vehicle self) -> _status self = None.
Proof.
  unfold _status, _charging.
  intros [Hc | (c & Hc & Hs)]; rewrite Hc; [reflexivity | rewrite Hs; reflexivity].
Qed.

Lemma _status_None_inv self :
  _status self = None -> status_unreachable (vehicle self).
Proof.
  unfold _status, _charging, status_unreachable.
  destruct (Vehicle.charging (vehicle self)) as [c|] eqn:Hc; [|left; reflexivity].
  destruct (Charging.status c) eqn:Hs; [discriminate|].
  intros _. right. exists c. split; [reflexivity | exact Hs].
Qed.

(** Settles a band of the chain: there the rounded tens digit is [k]. *)
Ltac bucket_is percent k :=
  replace ((percent + 5) / 10) with k
    by (apply Z.div_unique with (percent + 5 - 10 * k); lia);
  reflexivity.

(** The threshold chain computes the ten-point bucket. *)
Lemma battery_suffix_bucket percent :
  battery_suffix percent = ten_point_bucket percent.
Proof.
  unfold battery_suffix, ten_point_bucket.
  repeat (match goal with
          | |- context [?a >=? ?b] => destruct (Z.geb_spec a b)
          end);
    destruct (Z.ltb_spec percent 5); try lia.
  - rewrite Z.min_l by (pose proof (Z.div_le_lower_bound (percent + 5) 10 10); lia).
    reflexivity.
  - bucket_is percent 9.
  - bucket_is percent 8.
  - bucket_is percent 7.
  - bucket_is percent 6.
  - bucket_is percent 5.
  - bucket_is percent 4.
  - bucket_is percent 3.
  - bucket_is percent 2.
  - bucket_is percent 1.
  - reflexivity.
Qed.

(** The icon of a status that carries a percentage. *)
Lemma BatteryPercentage_icon_reading self status percent :
  _status self = Some status ->
  reading status Battery.state_of_charge_in_percent = Some percent ->
  BatteryPercentage_icon self =
    let suffix := battery_suffix percent in
    if bool_decide (ChargingStatus.state status ≠ Some charging.CONNECT_CABLE)
    then Ok ("mdi:battery-charging-" +:+ suffix)
    else if bool_decide (suffix = "100") then Ok "mdi:battery"
    else Ok ("mdi:battery-" +:+ suffix).
Proof.
  intros Hst Hr. unfold BatteryPercentage_icon. rewrite Hst.
  unfold reading in Hr.
  destruct (ChargingStatus.battery status) as [battery|]; cbn in *; [|discriminate].
  rewrite Hr. reflexivity.
Qed.

(** C3: with a charging status present that carries a percentage,
    [BatteryPercentage.icon] bands the percentage into ten-point buckets
    by the descending threshold chain (95 falls into "100", 94 into
    "90", 4 into "outline"); the icon is the charging variant of the
    bucket when the state is not cable-connected, and the static battery
    icon otherwise, where the "100" bucket becomes the plain
    "mdi:battery". *)
Theorem BatteryPercentage_icon_bands self status percent :
  _status self = Some status ->
  reading status Battery.state_of_charge_in_percent = Some percent ->
  let state := ChargingStatus.state status in
  battery_suffix percent = ten_point_bucket percent
  /\ (95 <= percent -> battery_suffix percent = "100")
  /\ (percent = 94 -> battery_suffix percent = "90")
  /\ (percent = 4 -> battery_suffix percent = "outline")
  /\ (state <> Some charging.CONNECT_CABLE ->
      icon BatteryPercentage self
        = Ok ("mdi:battery-charging-" +:+ battery_suffix percent))
  /\ (state = Some charging.CONNECT_CABLE ->
      battery_suffix percent = "100" ->
      icon BatteryPercentage self = Ok "mdi:battery")
  /\ (state = Some charging.CONNECT_CABLE ->
      battery_suffix percent <> "100" ->
      icon BatteryPercentage self = Ok ("mdi:battery-" +:+ battery_suffix percent)).
Proof.
  intros Hst Hr state.
  split; [apply battery_suffix_bucket|].
  split.
  { intros Hp. unfold battery_suffix.
    destruct (Z.geb_spec percent 95); [reflexivity | lia]. }
  split; [intros Hp; rewrite Hp; reflexivity|].
  split; [intros Hp; rewrite Hp; reflexivity|].
  cbn [icon BatteryPercentage].
  rewrite (BatteryPercentage_icon_reading self status percent Hst Hr).
  cbv zeta. fold state.
  repeat split.
  - intros Hs. rewrite bool_decide_eq_true_2 by exact Hs. reflexivity.
  - intros Hs H100. rewrite bool_decide_eq_false_2 by (intros Hn; apply Hn, Hs).
    rewrite bool_decide_eq_true_2 by exact H100. reflexivity.
  - intros Hs H100. rewrite bool_decide_eq_false_2 by (intros Hn; apply Hn, Hs).
    rewrite bool_decide_eq_false_2 by exact H100. reflexivity.
Qed.

Lemma BatteryPercentage_icon_bands_witness :
  icon BatteryPercentage (charging_entity 95 0 (Some charging.CONNECT_CABLE))
    = Ok "mdi:battery"
  /\ icon BatteryPercentage (charging_entity 94 0 (Some charging.CHARGING))
    = Ok "mdi:battery-charging-90"
  /\ icon BatteryPercentage (charging_entity 4 0 None)
    = Ok "mdi:battery-charging-outline".
Proof.
  split; [|split].
  - apply (BatteryPercentage_icon_bands
             (charging_entity 95 0 (Some charging.CONNECT_CABLE))
             (sample_status 95 0 (Some charging.CONNECT_CABLE)) 95 eq_refl eq_refl);
      reflexivity.
  - apply (BatteryPercentage_icon_bands
             (charging_entity 94 0 (Some charging.CHARGING))
             (sample_status 94 0 (Some charging.CHARGING)) 94 eq_refl eq_refl).
    discriminate.
  - apply (BatteryPercentage_icon_bands
             (charging_entity 4 0 None) (sample_status 4 0 None) 4 eq_refl eq_refl).
    discriminate.
Defined.

(** C4: when the charging record or its status is absent, so that the
    battery percentage cannot be reached, [BatteryPercentage.native_value]
    returns no value and [BatteryPercentage.icon] is the outline icon. *)
Theorem BatteryPercentage_absent self :
  status_unreachable (vehicle self) ->
  native_value BatteryPercentage self = Ok VNone
  /\ icon BatteryPercentage self = Ok "mdi:battery-outline".
Proof.
  intros H. apply _status_unreachable in H.
  cbn [native_value icon BatteryPercentage].
  unfold BatteryPercentage_native_value, BatteryPercentage_icon.
  rewrite H. split; reflexivity.
Qed.

Lemma BatteryPercentage_absent_witness :
  native_value BatteryPercentage bare_entity = Ok VNone
  /\ icon BatteryPercentage bare_entity = Ok "mdi:battery-outline".
Proof.
  apply (BatteryPercentage_absent bare_entity). left. reflexivity.
Defined.

(** The value of a status that carries a range. *)
Lemma RemainingDistance_reading self status meters :
  _status self = Some status ->
  reading status Battery.remaining_cruising_range_in_meters = Some meters ->
  RemainingDistance_native_value self = VFloat <$> int_truediv meters 1000.
Proof.
  intros Hst Hr. unfold RemainingDistance_native_value. rewrite Hst.
  unfold reading in Hr.
  destruct (ChargingStatus.battery status) as [battery|]; cbn in *; [|discriminate].
  rewrite Hr. reflexivity.
Qed.

(** C7: with a charging status present that carries a range,
    [RemainingDistance.native_value] is the range in meters divided by
    1000: zero meters give 0.0; any other range below [2 ^ 1000] in
    magnitude gives the binary64 number nearest to a thousandth of it,
    with its sign; a whole number of kilometers below [2 ^ 53] is
    returned exactly; and 123000 meters give the float 123.0. *)
Theorem RemainingDistance_in_km self status meters :
  _status self = Some status ->
  reading status Battery.remaining_cruising_range_in_meters = Some meters ->
  (meters = 0 -> native_value RemainingDistance self = Ok (VFloat 0%float))
  /\ (meters <> 0 -> Z.abs meters < 2 ^ 1000 ->
      exists q e,
        native_value RemainingDistance self
          = Ok (VFloat (SF2Prim (S754_finite (meters <? 0) (Z.to_pos q) e)))
        /\ 2 ^ 52 <= q
        /\ nearest_binary64 (Z.abs meters) 1000 q e)
  /\ (forall km, meters = 1000 * km -> 0 < km < 2 ^ 53 ->
      exists e,
        e <= 0
        /\ native_value RemainingDistance self
           = Ok (VFloat (SF2Prim (S754_finite false (Z.to_pos (km * 2 ^ (- e))) e))))
  /\ (meters = 123000 ->
      native_value RemainingDistance self = Ok (VFloat 123%float)).
Proof.
  intros Hst Hr.
  cbn [native_value RemainingDistance].
  rewrite (RemainingDistance_reading self status meters Hst Hr).
  split; [intros ->; reflexivity|].
  split.
  { intros Hnz Hlt.
    assert (Hpa : 0 < Z.abs meters) by lia.
    rewrite int_truediv_Ok by lia.
    change (Z.abs 1000) with 1000. change (1000 <? 0) with false.
    rewrite xorb_false_r.
    pose proof (float_nearest (Z.abs meters) 1000 Hpa ltac:(lia)) as Hn.
    pose proof Hn as (_ & _ & [He | Hq] & _).
    - exfalso. unfold float_exponent in He.
      pose proof (quotient_log2_ge (Z.abs meters) 1000 10 Hpa ltac:(lia) ltac:(lia)
                    ltac:(change (2 ^ 10) with 1024; lia)).
      lia.
    - exists (float_mantissa (Z.abs meters) 1000), (float_exponent (Z.abs meters) 1000).
      split; [|split; [exact Hq | exact Hn]].
      cbn. rewrite float_of_pos by lia. reflexivity. }
  split.
  { intros km -> Hkm.
    pose proof (float_mantissa_exact 1000 km ltac:(lia) Hkm) as [He Hq].
    exists (float_exponent (1000 * km) 1000). split; [exact He|].
    pose proof (float_exponent_ge (1000 * km) 1000) as Hge.
    rewrite int_truediv_Ok.
    - replace (Z.abs (1000 * km)) with (1000 * km) by lia.
      change (Z.abs 1000) with 1000. rewrite Hq.
      replace (1000 * km <? 0) with false by (symmetry; apply Z.ltb_ge; lia).
      cbn. rewrite float_of_pos; [reflexivity|].
      apply Z.mul_pos_pos; [lia | apply Z.pow_pos_nonneg; lia].
    - lia.
    - lia.
    - change (Z.abs 1000) with 1000.
      assert (2 ^ 53 <= 2 ^ 1000) by (apply pow2_le; lia). lia. }
  intros ->. vm_compute. reflexivity.
Qed.

Lemma RemainingDistance_in_km_witness :
  native_value RemainingDistance (charging_entity 50 123000 None)
    = Ok (VFloat 123%float)
  /\ native_value RemainingDistance (charging_entity 50 0 None)
    = Ok (VFloat 0%float)
  /\ (exists e,
        e <= 0
        /\ native_value RemainingDistance (charging_entity 50 412000 None)
           = Ok (VFloat (SF2Prim (S754_finite false (Z.to_pos (412 * 2 ^ (- e))) e))))
  /\ exists q e,
       native_value RemainingDistance (charging_entity 50 (-1500) None)
         = Ok (VFloat (SF2Prim (S754_finite (-1500 <? 0) (Z.to_pos q) e)))
       /\ 2 ^ 52 <= q
       /\ nearest_binary64 (Z.abs (-1500)) 1000 q e.
Proof.
  destruct (RemainingDistance_in_km (charging_entity 50 123000 None)
              (sample_status 50 123000 None) 123000 eq_refl eq_refl)
    as (_ & _ & _ & Hsample).
  destruct (RemainingDistance_in_km (charging_entity 50 0 None)
              (sample_status 50 0 None) 0 eq_refl eq_refl)
    as (Hzero & _).
  destruct (RemainingDistance_in_km (charging_entity 50 412000 None)
              (sample_status 50 412000 None) 412000 eq_refl eq_refl)
    as (_ & _ & Hwhole & _).
  destruct (RemainingDistance_in_km (charging_entity 50 (-1500) None)
              (sample_status 50 (-1500) None) (-1500) eq_refl eq_refl)
    as (_ & Hnearest & _).
  split; [exact (Hsample eq_refl)|].
  split; [exact (Hzero eq_refl)|].
  split.
  - apply (Hwhole 412); [reflexivity|]. split; reflexivity.
  - apply Hnearest; [discriminate | reflexivity].
Defined.

(** C8: with a charging status that carries one of the four states,
    [ChargingState.native_value] is the lower-case name of the state:
    "connect_cable", "ready_for_charging", "conserving" or "charging",
    each a member of the sensor's options; [ChargingState.icon] is the
    unplugged icon for cable-connected, the charging icon for charging
    and the default icon otherwise. *)
Theorem ChargingState_value_and_icon self status state :
  _status self = Some status ->
  ChargingStatus.state status = Some state ->
  (state = charging.CONNECT_CABLE ->
   native_value ChargingState self = Ok (VStr "connect_cable")
   /\ icon ChargingState self = Ok "mdi:power-plug-off")
  /\ (state = charging.READY_FOR_CHARGING ->
      native_value ChargingState self = Ok (VStr "ready_for_charging")
      /\ icon ChargingState self = Ok "mdi:power-plug")
  /\ (state = charging.CONSERVING ->
      native_value ChargingState self = Ok (VStr "conserving")
      /\ icon ChargingState self = Ok "mdi:power-plug")
  /\ (state = charging.CHARGING ->
      native_value ChargingState self = Ok (VStr "charging")
      /\ icon ChargingState self = Ok "mdi:power-plug-battery")
  /\ (In state known_states ->
      exists value,
        native_value ChargingState self = Ok (VStr value)
        /\ In value _attr_options)
  /\ (state <> charging.CONNECT_CABLE -> state <> charging.CHARGING ->
      icon ChargingState self = Ok "mdi:power-plug").
Proof.
  intros Hst Hs.
  cbn [native_value icon ChargingState].
  unfold ChargingState_native_value, ChargingState_icon.
  rewrite Hst, Hs.
  split; [intros ->; split; reflexivity|].
  split; [intros ->; split; reflexivity|].
  split; [intros ->; split; reflexivity|].
  split; [intros ->; split; reflexivity|].
  split.
  - intros Hin. cbn [In known_states] in Hin.
    destruct Hin as [<- | [<- | [<- | [<- | []]]]]; eexists;
      (split; [reflexivity | cbn; tauto]).
  - intros Hc Hg.
    rewrite bool_decide_eq_false_2 by congruence.
    rewrite bool_decide_eq_false_2 by congruence. reflexivity.
Qed.

Lemma ChargingState_value_and_icon_witness :
  (native_value ChargingState (charging_entity 50 0 (Some charging.CONNECT_CABLE))
     = Ok (VStr "connect_cable")
   /\ icon ChargingState (charging_entity 50 0 (Some charging.CONNECT_CABLE))
     = Ok "mdi:power-plug-off")
  /\ (native_value ChargingState (charging_entity 50 0 (Some charging.READY_FOR_CHARGING))
        = Ok (VStr "ready_for_charging")
      /\ icon ChargingState (charging_entity 50 0 (Some charging.READY_FOR_CHARGING))
        = Ok "mdi:power-plug")
  /\ (native_value ChargingState (charging_entity 50 0 (Some charging.CONSERVING))
        = Ok (VStr "conserving")
      /\ icon ChargingState (charging_entity 50 0 (Some charging.CONSERVING))
        = Ok "mdi:power-plug")
  /\ (native_value ChargingState (charging_entity 50 0 (Some charging.CHARGING))
        = Ok (VStr "charging")
      /\ icon ChargingState (charging_entity 50 0 (Some charging.CHARGING))
        = Ok "mdi:power-plug-battery").
Proof.
  pose proof (fun state =>
                ChargingState_value_and_icon
                  (charging_entity 50 0 (Some state))
                  (sample_status 50 0 (Some state)) state eq_refl eq_refl) as H.
  destruct (H charging.CONNECT_CABLE) as (Hcable & _).
  destruct (H charging.READY_FOR_CHARGING) as (_ & Hready & _).
  destruct (H charging.CONSERVING) as (_ & _ & Hconserving & _).
  destruct (H charging.CHARGING) as (_ & _ & _ & Hcharging & _).
  split; [exact (Hcable eq_refl)|].
  split; [exact (Hready eq_refl)|].
  split; [exact (Hconserving eq_refl) | exact (Hcharging eq_refl)].
Defined.

(** The icons of the threshold chain are icon references. *)
Lemma battery_icons_are_refs percent :
  is_icon_ref ("mdi:battery-charging-" +:+ battery_suffix percent) = true
  /\ is_icon_ref ("mdi:battery-" +:+ battery_suffix percent) = true.
Proof. split; reflexivity. Qed.

(** C9 does not hold of the code: [BatteryPercentage.icon] guards the
    charging status only.  On a status whose battery carries no
    percentage the comparison with 95 raises [TypeError], and on a
    status without a battery the attribute access raises
    [AttributeError]; no icon is returned, although
    [BatteryPercentage.native_value] returns no value on the first and
    the two other icon functions return their icons on both. *)
Theorem BatteryPercentage_icon_raises :
  icon BatteryPercentage (status_entity status_without_percent) = Raise TypeError
  /\ native_value BatteryPercentage (status_entity status_without_percent) = Ok VNone
  /\ icon BatteryPercentage (status_entity status_without_battery)
     = Raise AttributeError
  /\ icon ChargeType (status_entity status_without_percent) = Ok "mdi:ev-plug-type2"
  /\ icon ChargingState (status_entity status_without_percent)
     = Ok "mdi:power-plug-off"
  /\ icon ChargeType (status_entity status_without_battery) = Ok "mdi:ev-plug-type2"
  /\ icon ChargingState (status_entity status_without_battery)
     = Ok "mdi:power-plug-off".
Proof. repeat split. Qed.

(** C10: [BatteryPercentage.available] is true for every entity, whatever
    its capability set: the sensor does not go through the
    capability check of the other charging sensors. *)
Theorem BatteryPercentage_always_available self :
  available BatteryPercentage self = true.
Proof. reflexivity. Qed.

(** The inherited check fails as soon as a required tag is missing. *)
Lemma MySkodaEntity_available_lacking required self c :
  In c required ->
  c ∉ capabilities self ->
  MySkodaEntity_available required self = false.
Proof.
  intros Hin Hc. unfold MySkodaEntity_available.
  apply not_true_is_false. intros Hall.
  rewrite forallb_forall in Hall. specialize (Hall c Hin).
  apply bool_decide_eq_true_1 in Hall. contradiction.
Qed.

(** C2, as the claim states it, fails: on an entity whose capability set
    is empty, [BatteryPercentage], a sensor derived from
    [ChargingSensor], reports available. *)
Lemma charging_sensors_unavailable_counterexample :
  (CapabilityId.CHARGING ∉ capabilities bare_entity)
  /\ In BatteryPercentage charging_sensors
  /\ available BatteryPercentage bare_entity = true.
Proof.
  split; [apply not_elem_of_empty|].
  split; [left; reflexivity | reflexivity].
Qed.

(** C2, amended: on a capability set without [CHARGING], every sensor
    derived from [ChargingSensor] other than [BatteryPercentage] reports
    unavailable, whatever the snapshot holds; [BatteryPercentage]
    overrides the check and reports available. *)
Theorem charging_sensors_unavailable self :
  CapabilityId.CHARGING ∉ capabilities self ->
  (forall s,
     In s [ChargingPower; RemainingDistance; TargetBatteryPercentage;
           ChargeType; ChargingState; RemainingChargingTime] ->
     available s self = false)
  /\ available BatteryPercentage self = true.
Proof.
  intros Hc. split; [|reflexivity].
  intros s Hs. cbn [In] in Hs.
  destruct Hs as [<- | [<- | [<- | [<- | [<- | [<- | []]]]]]];
    apply (MySkodaEntity_available_lacking _ _ CapabilityId.CHARGING);
    solve [left; reflexivity | exact Hc].
Qed.

Lemma charging_sensors_unavailable_witness :
  available ChargingPower
    (entity_of None {[ CapabilityId.STATE ]}) = false
  /\ available BatteryPercentage
    (entity_of None {[ CapabilityId.STATE ]}) = true.
Proof.
  assert (Hc : CapabilityId.CHARGING ∉
                 capabilities (entity_of None {[ CapabilityId.STATE ]})).
  { cbn. rewrite elem_of_singleton. discriminate. }
  destruct (charging_sensors_unavailable _ Hc) as [Hrest Hbat].
  split; [apply Hrest; left; reflexivity | exact Hbat].
Defined.

(** C1 does not hold of the code: on a snapshot whose info record is
    absent, [SoftwareVersion.native_value] raises [AttributeError]
    instead of returning no value, where [Mileage] and [LastUpdated]
    guard their record and return no value on the same snapshot; and
    [InspectionInterval.native_value] raises in the same way when the
    maintenance record is absent. *)
Theorem SoftwareVersion_raises_without_info :
  Vehicle.info (vehicle bare_entity) = None
  /\ native_value SoftwareVersion bare_entity = Raise AttributeError
  /\ Vehicle.health (vehicle bare_entity) = None
  /\ native_value Mileage bare_entity = Ok VNone
  /\ Vehicle.status (vehicle bare_entity) = None
  /\ native_value LastUpdated bare_entity = Ok VNone
  /\ Vehicle.maintenance (vehicle bare_entity) = None
  /\ native_value InspectionInterval bare_entity = Raise AttributeError.
Proof. repeat split. Qed.

(** ** Properties of the config flow *)

Lemma validate_input_connect connect user_input email password :
  user_input !! "email" = Some email ->
  user_input !! "password" = Some password ->
  validate_input connect user_input = connect email password.
Proof.
  intros He Hp. unfold validate_input, getitem. rewrite He, Hp. reflexivity.
Qed.

(** C5: [async_step_user] sorts the outcome of the [connect] call into
    one of three error codes: [CannotConnect] gives "cannot_connect",
    [AuthorizationFailedError] gives "invalid_auth" (not
    "cannot_connect"), every other exception gives "unknown"; without an
    exception the flow creates the entry. *)
Theorem async_step_user_classifies connect user_input email password :
  user_input !! "email" = Some email ->
  user_input !! "password" = Some password ->
  let form code := Ok (async_show_form "user" (Some {["base" := code]}) None) in
  (connect email password = Raise CannotConnect ->
   async_step_user connect (Some user_input) = form "cannot_connect")
  /\ (connect email password = Raise AuthorizationFailedError ->
      async_step_user connect (Some user_input) = form "invalid_auth"
      /\ async_step_user connect (Some user_input) <> form "cannot_connect")
  /\ (forall e, connect email password = Raise e ->
      e <> CannotConnect -> e <> AuthorizationFailedError ->
      is_Exception e = true ->
      async_step_user connect (Some user_input) = form "unknown")
  /\ (connect email password = Ok () ->
      async_step_user connect (Some user_input)
        = Ok (async_create_entry email user_input)).
Proof.
  intros He Hp form.
  pose proof (validate_input_connect connect _ _ _ He Hp) as Hv.
  unfold async_step_user. rewrite Hv.
  split; [intros ->; reflexivity|].
  split.
  { intros ->. split; [reflexivity|].
    unfold form. intros Heq.
    apply (f_equal form_error) in Heq. vm_compute in Heq. discriminate. }
  split.
  { intros e -> Hc Ha Hex.
    destruct e; try reflexivity; try contradiction; discriminate. }
  intros ->. unfold getitem. rewrite He. reflexivity.
Qed.

Lemma async_step_user_classifies_witness :
  async_step_user (backend (Raise AuthorizationFailedError))
    (Some (sample_input "secret"))
  = Ok (async_show_form "user" (Some {["base" := "invalid_auth"]}) None).
Proof.
  apply (async_step_user_classifies (backend (Raise AuthorizationFailedError))
           (sample_input "secret") "driver@example.org" "secret"
           eq_refl eq_refl).
  reflexivity.
Defined.

(** C6 does not hold of the code.  A reauth submission whose validation
    fails computes the error code and then falls off the end of the
    method, which returns [None]: no form is shown again, where
    [async_step_user] shows its form with the code.  A submission whose
    validation succeeds reads [self.reauth_entry], which the class never
    assigns, and raises.  On the flow object as the class builds it the
    method raises [AttributeError] at [self._data], before any
    validation. *)
Theorem reauth_confirm_shows_no_form :
  let submitted := Some (sample_input "wrong") in
  let rejecting := backend (Raise AuthorizationFailedError) in
  let accepting := backend (Ok ()) in
  snd (_async_step_reauth_confirm rejecting reauth_flow_with_data submitted)
    = Ok None
  /\ async_step_user rejecting submitted
    = Ok (async_show_form "user" (Some {["base" := "invalid_auth"]}) None)
  /\ snd (_async_step_reauth_confirm accepting reauth_flow_with_data submitted)
    = Raise AttributeError
  /\ snd (_async_step_reauth_confirm rejecting reauth_flow submitted)
    = Raise AttributeError
  /\ snd (_async_step_reauth_confirm accepting reauth_flow submitted)
    = Raise AttributeError
  /\ async_step_reauth rejecting {["entry-1" := sample_entry]}
       {["entry_id" := "entry-1"]} ConfigFlow_init
    = (reauth_flow, Raise AttributeError).
Proof. repeat split. Qed.

(** Whatever the failure and whatever the flow object, a failed
    validation never ends the reauth step in a form. *)
Lemma reauth_confirm_failure_never_form connect self user_input e r :
  validate_input connect user_input = Raise e ->
  snd (_async_step_reauth_confirm connect self (Some user_input)) <> Ok (Some r).
Proof.
  intros Hv. unfold _async_step_reauth_confirm.
  destruct (_reauth_entry self); [|discriminate].
  destruct (getitem user_input CONF_PASSWORD); [|discriminate].
  destruct (self_attr (_data self)); [|discriminate].
  rewrite Hv. destruct e; cbn; discriminate.
Qed.

(** ** Further properties of the sensor mapper *)

(** Splits a membership in a literal list into its cases. *)
Ltac in_cases H :=
  cbn [In sensors charging_sensors available_entities] in H;
  repeat (destruct H as [<- | H]);
  try (exfalso; exact H).

Lemma lower_ascii_idempotent c : lower_ascii (lower_ascii c) = lower_ascii c.
Proof. destruct c as [[] [] [] [] [] [] [] []]; reflexivity. Qed.

Lemma lower_idempotent s : lower (lower s) = lower s.
Proof.
  induction s as [|c s IH]; [reflexivity|].
  cbn [lower]. rewrite lower_ascii_idempotent, IH. reflexivity.
Qed.

(** A division by 1000 that overflows has a numerator of [2 ^ 1000] or
    more in magnitude. *)
Lemma int_truediv_1000_raises meters e :
  int_truediv meters 1000 = Raise e ->
  e = OverflowError /\ 2 ^ 1000 <= Z.abs meters.
Proof.
  intros H.
  destruct (Z.eq_dec meters 0) as [-> | Hnz]; [discriminate|].
  destruct (Z.lt_ge_cases (Z.abs meters) (2 ^ 1000)) as [Hlt | Hge].
  - rewrite int_truediv_Ok in H; [discriminate | exact Hnz | lia |].
    change (Z.abs 1000) with 1000. lia.
  - split; [|exact Hge]. revert H. unfold int_truediv.
    change (1000 =? 0) with false. cbv iota.
    destruct (meters =? 0); [discriminate|]. cbv zeta.
    match goal with |- context [if ?c then _ else _] => destruct c end;
      congruence.
Qed.

(** X1: the only ways a sensor's [native_value] raises, on a snapshot
    any of whose attributes may be [None]: [AttributeError] for
    [SoftwareVersion] without an info record, for [InspectionInterval]
    without a maintenance record, for [BatteryPercentage] and
    [RemainingDistance] on a status without a battery and for
    [TargetBatteryPercentage] on a charging record without settings;
    [TypeError] for [RemainingDistance] on a battery without a range;
    [OverflowError] for [RemainingDistance] on a range of [2 ^ 1000]
    meters or more; and whatever [get_renders] raises for [MainRender].
    The other six sensors raise on no snapshot. *)
Theorem native_value_raises_only self s e :
  In s sensors ->
  native_value s self = Raise e ->
  (s = SoftwareVersion /\ Vehicle.info (vehicle self) = None /\ e = AttributeError)
  \/ (s = InspectionInterval /\ Vehicle.maintenance (vehicle self) = None
      /\ e = AttributeError)
  \/ (s = BatteryPercentage /\ e = AttributeError
      /\ exists status, _status self = Some status
                        /\ ChargingStatus.battery status = None)
  \/ (s = TargetBatteryPercentage /\ e = AttributeError
      /\ exists c, Vehicle.charging (vehicle self) = Some c
                   /\ Charging.settings c = None)
  \/ (s = RemainingDistance
      /\ exists status,
           _status self = Some status
           /\ ((e = AttributeError /\ ChargingStatus.battery status = None)
               \/ (e = TypeError
                   /\ exists battery,
                        ChargingStatus.battery status = Some battery
                        /\ Battery.remaining_cruising_range_in_meters battery = None)
               \/ (e = OverflowError
                   /\ exists meters,
                        reading status Battery.remaining_cruising_range_in_meters
                          = Some meters
                        /\ 2 ^ 1000 <= Z.abs meters)))
  \/ (s = MainRender /\ get_renders self = Raise e).
Proof.
  intros Hs. in_cases Hs;
    cbn [native_value SoftwareVersion BatteryPercentage ChargingPower
           RemainingDistance TargetBatteryPercentage Mileage InspectionInterval
           ChargeType ChargingState RemainingChargingTime LastUpdated MainRender].
  - unfold SoftwareVersion_native_value.
    destruct (Vehicle.info (vehicle self)) eqn:Hi; cbn; [discriminate|].
    intros [= <-]. left. repeat split.
  - unfold BatteryPercentage_native_value.
    destruct (_status self) as [status|] eqn:Hst; [|discriminate].
    destruct (ChargingStatus.battery status) eqn:Hb; cbn; [discriminate|].
    intros [= <-]. do 2 right; left. repeat split.
    exists status. split; [reflexivity | exact Hb].
  - unfold ChargingPower_native_value. destruct (_status self); discriminate.
  - unfold RemainingDistance_native_value.
    destruct (_status self) as [status|] eqn:Hst; [|discriminate].
    intros H. do 4 right; left. split; [reflexivity|].
    exists status. split; [reflexivity|]. unfold reading.
    destruct (ChargingStatus.battery status) as [battery|] eqn:Hb;
      cbn -[int_truediv] in *.
    + destruct (Battery.remaining_cruising_range_in_meters battery)
        as [meters|] eqn:Hm; cbn -[int_truediv] in *.
      * right; right.
        destruct (int_truediv meters 1000) as [f|e'] eqn:Hd;
          cbn -[int_truediv] in H; [discriminate|].
        injection H as <-.
        apply int_truediv_1000_raises in Hd as [-> Hge].
        split; [reflexivity|]. exists meters. split; [reflexivity | exact Hge].
      * right; left. injection H as <-. split; [reflexivity|].
        exists battery. split; [reflexivity | exact Hm].
    + left. injection H as <-. split; reflexivity.
  - unfold TargetBatteryPercentage_native_value, _charging.
    destruct (Vehicle.charging (vehicle self)) as [c|] eqn:Hc; [|discriminate].
    destruct (Charging.settings c) eqn:Hset; cbn; [discriminate|].
    intros [= <-]. do 3 right; left. repeat split.
    exists c. split; [reflexivity | exact Hset].
  - unfold Mileage_native_value. destruct (Vehicle.health (vehicle self)); discriminate.
  - unfold InspectionInterval_native_value.
    destruct (Vehicle.maintenance (vehicle self)) as [m|] eqn:Hm; cbn.
    + destruct (Maintenance.maintenance_report m); discriminate.
    + intros [= <-]. right; left. repeat split.
  - unfold ChargeType_native_value. destruct (_status self); discriminate.
  - unfold ChargingState_native_value.
    destruct (_status self) as [st|]; [|discriminate].
    destruct (ChargingStatus.state st) as [state|]; [|discriminate].
    destruct (charging.truthy state); discriminate.
  - unfold RemainingChargingTime_native_value. destruct (_status self); discriminate.
  - unfold LastUpdated_native_value. destruct (Vehicle.status (vehicle self)); discriminate.
  - unfold MainRender_native_value.
    destruct (get_renders self) eqn:Hr; cbn; [discriminate|].
    intros [= <-]. do 5 right. split; reflexivity.
Qed.

Lemma native_value_raises_only_witness :
  (RemainingDistance = SoftwareVersion
   /\ Vehicle.info (vehicle (status_entity status_without_battery)) = None
   /\ AttributeError = AttributeError)
  \/ (RemainingDistance = InspectionInterval
      /\ Vehicle.maintenance (vehicle (status_entity status_without_battery)) = None
      /\ AttributeError = AttributeError)
  \/ (RemainingDistance = BatteryPercentage /\ AttributeError = AttributeError
      /\ exists status, _status (status_entity status_without_battery) = Some status
                        /\ ChargingStatus.battery status = None)
  \/ (RemainingDistance = TargetBatteryPercentage /\ AttributeError = AttributeError
      /\ exists c,
           Vehicle.charging (vehicle (status_entity status_without_battery)) = Some c
           /\ Charging.settings c = None)
  \/ (RemainingDistance = RemainingDistance
      /\ exists status,
           _status (status_entity status_without_battery) = Some status
           /\ ((AttributeError = AttributeError /\ ChargingStatus.battery status = None)
               \/ (AttributeError = TypeError
                   /\ exists battery,
                        ChargingStatus.battery status = Some battery
                        /\ Battery.remaining_cruising_range_in_meters battery = None)
               \/ (AttributeError = OverflowError
                   /\ exists meters,
                        reading status Battery.remaining_cruising_range_in_meters
                          = Some meters
                        /\ 2 ^ 1000 <= Z.abs meters)))
  \/ (RemainingDistance = MainRender
      /\ get_renders (status_entity status_without_battery) = Raise AttributeError).
Proof.
  apply (native_value_raises_only (status_entity status_without_battery)
           RemainingDistance AttributeError).
  - do 3 right. left. reflexivity.
  - reflexivity.
Defined.

(** X3: [ChargeType.icon] is the DC plug exactly when a charging status
    is present and its charge type is the string "DC"; any other
    spelling, a missing charge type and a missing status give the AC
    plug. *)
Theorem ChargeType_icon_dc self :
  (icon ChargeType self = Ok "mdi:ev-plug-ccs2" <->
   exists status, _status self = Some status
                  /\ ChargingStatus.charge_type status = Some "DC")
  /\ (icon ChargeType self <> Ok "mdi:ev-plug-ccs2" ->
      icon ChargeType self = Ok "mdi:ev-plug-type2").
Proof.
  cbn [icon ChargeType]. unfold ChargeType_icon.
  destruct (_status self) as [status|].
  - case_bool_decide as Hdc.
    + split; [|intros H; contradiction].
      split; [intros _; exists status; split; [reflexivity | exact Hdc] | reflexivity].
    + split; [|reflexivity].
      split; [discriminate|]. intros (st & [= <-] & Hst). contradiction.
  - split; [|reflexivity].
    split; [discriminate|]. intros (st & Hst & _). discriminate.
Qed.

Lemma ChargeType_icon_dc_witness :
  icon ChargeType (charging_entity 50 0 None) = Ok "mdi:ev-plug-type2".
Proof.
  apply (ChargeType_icon_dc (charging_entity 50 0 None)). discriminate.
Defined.

(** X4: whatever the percentage, also a negative one or one above 100,
    every icon [BatteryPercentage.icon] returns is one of the twenty-two
    battery icons; "mdi:battery-100" is never returned. *)
Theorem BatteryPercentage_icon_in_set self name :
  icon BatteryPercentage self = Ok name ->
  In name battery_icons /\ name <> "mdi:battery-100".
Proof.
  cbn [icon BatteryPercentage]. unfold BatteryPercentage_icon.
  destruct (_status self) as [status|];
    [|intros [= <-]; split; [left; reflexivity | discriminate]].
  destruct (ChargingStatus.battery status) as [battery|]; cbn; [|discriminate].
  destruct (Battery.state_of_charge_in_percent battery) as [percent|]; cbn;
    [|discriminate].
  unfold battery_suffix.
  repeat (match goal with
          | |- context [?a >=? ?b] => destruct (a >=? b)
          end);
    repeat case_bool_decide; try discriminate; try congruence;
    (intros [= <-]; split; [cbn; tauto | discriminate]).
Qed.

Lemma BatteryPercentage_icon_in_set_witness :
  In "mdi:battery-charging-40" battery_icons
  /\ "mdi:battery-charging-40" <> "mdi:battery-100".
Proof.
  apply (BatteryPercentage_icon_in_set
           (charging_entity 42 0 (Some charging.CHARGING))).
  reflexivity.
Defined.

(** X5: the outline icon is ambiguous: [BatteryPercentage.icon] is
    "mdi:battery-outline" exactly when no charging status can be reached
    or when the cable is only connected and the percentage is below 5. *)
Theorem BatteryPercentage_icon_outline_iff self :
  icon BatteryPercentage self = Ok "mdi:battery-outline" <->
  _status self = None
  \/ exists status percent,
       _status self = Some status
       /\ reading status Battery.state_of_charge_in_percent = Some percent
       /\ ChargingStatus.state status = Some charging.CONNECT_CABLE
       /\ percent < 5.
Proof.
  cbn [icon BatteryPercentage].
  destruct (_status self) as [status|] eqn:Hst;
    [|unfold BatteryPercentage_icon; rewrite Hst;
      split; [left; reflexivity | reflexivity]].
  destruct (reading status Battery.state_of_charge_in_percent) as [percent|] eqn:Hr.
  - rewrite (BatteryPercentage_icon_reading self status percent Hst Hr). cbv zeta.
    split.
    + intros Hicon. right. exists status, percent.
      split; [reflexivity|]. split; [exact Hr|].
      unfold battery_suffix in Hicon.
      case_bool_decide as Hstate.
      * exfalso. revert Hicon.
        repeat (match goal with
                | |- context [?a >=? ?b] => destruct (a >=? b)
                end); discriminate.
      * split; [destruct (decide (ChargingStatus.state status
                                   = Some charging.CONNECT_CABLE));
                [assumption | contradiction]|].
        revert Hicon.
        repeat (match goal with
                | |- context [?a >=? ?b] => destruct (Z.geb_spec a b)
                end); cbn; try discriminate. intros _. lia.
    + intros [H | (st & p & [= <-] & Hr' & Hstate & Hp)]; [discriminate|].
      rewrite Hr in Hr'. injection Hr' as <-.
      rewrite bool_decide_eq_false_2 by (intros Hn; apply Hn, Hstate).
      unfold battery_suffix.
      repeat (match goal with
              | |- context [?a >=? ?b] => destruct (Z.geb_spec a b)
              end); try lia. reflexivity.
  - split.
    + unfold BatteryPercentage_icon. rewrite Hst. unfold reading in Hr.
      destruct (ChargingStatus.battery status) as [battery|]; cbn in *;
        [rewrite Hr|]; discriminate.
    + intros [H | (st & p & [= <-] & H & _)]; [discriminate|].
      rewrite Hr in H. discriminate.
Qed.

Lemma BatteryPercentage_icon_outline_iff_witness :
  icon BatteryPercentage (charging_entity 3 0 (Some charging.CONNECT_CABLE))
    = Ok "mdi:battery-outline".
Proof.
  apply (BatteryPercentage_icon_outline_iff
           (charging_entity 3 0 (Some charging.CONNECT_CABLE))).
  right. exists (sample_status 3 0 (Some charging.CONNECT_CABLE)), 3.
  split; [reflexivity|]. split; [reflexivity|]. split; [reflexivity | reflexivity].
Defined.

(** X6: [TargetBatteryPercentage] reads the charging settings, not the
    status: with a charging record present that has settings it returns
    their target percentage whether or not the record has a status, and
    when the status is missing it is the only charging sensor that can
    report a value. *)
Theorem TargetBatteryPercentage_reads_settings self c :
  Vehicle.charging (vehicle self) = Some c ->
  (forall settings,
     Charging.settings c = Some settings ->
     native_value TargetBatteryPercentage self
       = Ok match Settings.target_state_of_charge_in_percent settings with
            | Some target => VInt target
            | None => VNone
            end)
  /\ (Charging.status c = None ->
      forall s, In s charging_sensors ->
        s = TargetBatteryPercentage \/ native_value s self = Ok VNone).
Proof.
  intros Hc.
  assert (Hch : _charging self = Some c) by (unfold _charging; rewrite Hc; reflexivity).
  split.
  - intros settings Hset. cbn [native_value TargetBatteryPercentage].
    unfold TargetBatteryPercentage_native_value. rewrite Hch, Hset. reflexivity.
  - intros Hs s Hin.
    assert (Hst : _status self = None)
      by (unfold _status; rewrite Hch, Hs; reflexivity).
    in_cases Hin;
      cbn [native_value BatteryPercentage ChargingPower RemainingDistance
             TargetBatteryPercentage ChargeType ChargingState RemainingChargingTime];
      unfold BatteryPercentage_native_value, ChargingPower_native_value,
        RemainingDistance_native_value, ChargeType_native_value,
        ChargingState_native_value, RemainingChargingTime_native_value;
      rewrite ?Hst; solve [left; reflexivity | right; reflexivity].
Qed.

Lemma TargetBatteryPercentage_reads_settings_witness :
  native_value TargetBatteryPercentage (entity_of (Some (settings_only 80)) ∅)
    = Ok (VInt 80)
  /\ (BatteryPercentage = TargetBatteryPercentage
      \/ native_value BatteryPercentage (entity_of (Some (settings_only 80)) ∅)
         = Ok VNone).
Proof.
  destruct (TargetBatteryPercentage_reads_settings
              (entity_of (Some (settings_only 80)) ∅) (settings_only 80) eq_refl)
    as [Hvalue Hothers].
  split; [exact (Hvalue _ eq_refl)|].
  apply (Hothers eq_refl). left. reflexivity.
Defined.

(** X7: with a charging status present [ChargeType.native_value] is
    always a string, in lower case; a status without a charge type gives
    the string "none", not an absent value. *)
Theorem ChargeType_value_is_string self status :
  _status self = Some status ->
  exists s, native_value ChargeType self = Ok (VStr s)
            /\ lower s = s
            /\ (ChargingStatus.charge_type status = None -> s = "none").
Proof.
  intros Hst. cbn [native_value ChargeType]. unfold ChargeType_native_value.
  rewrite Hst. eexists. split; [reflexivity|].
  split; [apply lower_idempotent|]. intros ->. reflexivity.
Qed.

Lemma ChargeType_value_is_string_witness :
  exists s, native_value ChargeType (charging_entity 50 0 None) = Ok (VStr s)
            /\ lower s = s
            /\ (ChargingStatus.charge_type (sample_status 50 0 None) = None ->
                s = "none").
Proof.
  apply (ChargeType_value_is_string (charging_entity 50 0 None)
           (sample_status 50 0 None)).
  reflexivity.
Defined.

(** X20: a sensor that guards the record it reads returns no value, and
    does not raise, when that record is absent: every charging sensor
    without a charging record, those reading the charging status also
    without a status, [Mileage] without a health record, [LastUpdated]
    without a status record, and [InspectionInterval] with a maintenance
    record that has no report. *)
Theorem native_value_guarded_absent self :
  (Vehicle.charging (vehicle self) = None ->
   forall s, In s charging_sensors -> native_value s self = Ok VNone)
  /\ (status_unreachable (vehicle self) ->
      forall s,
        In s [BatteryPercentage; ChargingPower; RemainingDistance;
              ChargeType; ChargingState; RemainingChargingTime] ->
        native_value s self = Ok VNone)
  /\ (Vehicle.health (vehicle self) = None ->
      native_value Mileage self = Ok VNone)
  /\ (Vehicle.status (vehicle self) = None ->
      native_value LastUpdated self = Ok VNone)
  /\ (forall m, Vehicle.maintenance (vehicle self) = Some m ->
      Maintenance.maintenance_report m = None ->
      native_value InspectionInterval self = Ok VNone).
Proof.
  split.
  { intros Hc s Hs.
    assert (Hch : _charging self = None) by (unfold _charging; rewrite Hc; reflexivity).
    assert (Hst : _status self = None) by (unfold _status; rewrite Hch; reflexivity).
    in_cases Hs;
      cbn [native_value BatteryPercentage ChargingPower RemainingDistance
             TargetBatteryPercentage ChargeType ChargingState RemainingChargingTime];
      unfold BatteryPercentage_native_value, ChargingPower_native_value,
        RemainingDistance_native_value, TargetBatteryPercentage_native_value,
        ChargeType_native_value, ChargingState_native_value,
        RemainingChargingTime_native_value;
      rewrite ?Hst, ?Hch; reflexivity. }
  split.
  { intros Hu s Hs. apply _status_unreachable in Hu.
    in_cases Hs;
      cbn [native_value BatteryPercentage ChargingPower RemainingDistance
             ChargeType ChargingState RemainingChargingTime];
      unfold BatteryPercentage_native_value, ChargingPower_native_value,
        RemainingDistance_native_value, ChargeType_native_value,
        ChargingState_native_value, RemainingChargingTime_native_value;
      rewrite Hu; reflexivity. }
  cbn [native_value Mileage LastUpdated InspectionInterval].
  unfold Mileage_native_value, LastUpdated_native_value,
    InspectionInterval_native_value.
  repeat split.
  - intros ->. reflexivity.
  - intros ->. reflexivity.
  - intros m -> Hr. cbn. rewrite Hr. reflexivity.
Qed.

Lemma native_value_guarded_absent_witness :
  native_value TargetBatteryPercentage bare_entity = Ok VNone
  /\ native_value ChargeType bare_entity = Ok VNone
  /\ native_value Mileage bare_entity = Ok VNone
  /\ native_value LastUpdated bare_entity = Ok VNone
  /\ native_value InspectionInterval (entity_of None ∅) = Ok VNone.
Proof.
  destruct (native_value_guarded_absent bare_entity)
    as (Hcharging & Hstatus & Hhealth & Hlast & _).
  destruct (native_value_guarded_absent (entity_of None ∅))
    as (_ & _ & _ & _ & Hreport).
  split; [apply (Hcharging eq_refl); do 3 right; left; reflexivity|].
  split; [apply Hstatus; [left; reflexivity | do 3 right; left; reflexivity]|].
  split; [exact (Hhealth eq_refl)|].
  split; [exact (Hlast eq_refl) | exact (Hreport _ eq_refl eq_refl)].
Defined.

(** X21: [ChargeType.icon] and [ChargingState.icon] return an
    "mdi:"-prefixed icon on every snapshot.  [BatteryPercentage.icon]
    raises exactly when a charging status is present that carries no
    percentage; every icon it returns is "mdi:"-prefixed.  With no
    charging status to read, the three functions return their neutral
    icons. *)
Theorem dynamic_icons_valid self :
  (forall s, In s [ChargeType; ChargingState] ->
     exists name, icon s self = Ok name /\ is_icon_ref name = true)
  /\ (forall name, icon BatteryPercentage self = Ok name -> is_icon_ref name = true)
  /\ ((exists e, icon BatteryPercentage self = Raise e) <->
      exists status,
        _status self = Some status
        /\ reading status Battery.state_of_charge_in_percent = None)
  /\ (_status self = None ->
      icon BatteryPercentage self = Ok "mdi:battery-outline"
      /\ icon ChargeType self = Ok "mdi:ev-plug-type2"
      /\ icon ChargingState self = Ok "mdi:power-plug").
Proof.
  split.
  { intros s Hs. in_cases Hs; cbn [icon ChargeType ChargingState].
    - unfold ChargeType_icon.
      destruct (_status self); [case_bool_decide|]; eexists; split; reflexivity.
    - unfold ChargingState_icon.
      destruct (_status self); [repeat case_bool_decide|];
        eexists; split; reflexivity. }
  cbn [icon BatteryPercentage ChargeType ChargingState].
  destruct (_status self) as [status|] eqn:Hst.
  - destruct (reading status Battery.state_of_charge_in_percent)
      as [percent|] eqn:Hr.
    + rewrite (BatteryPercentage_icon_reading self status percent Hst Hr). cbv zeta.
      split.
      { intros name. repeat case_bool_decide; intros [= <-];
          try reflexivity; apply battery_icons_are_refs. }
      split; [|discriminate].
      split.
      * intros [e He]. revert He. repeat case_bool_decide; discriminate.
      * intros (st & [= <-] & H). rewrite Hr in H. discriminate.
    + assert (Hraise : exists e, BatteryPercentage_icon self = Raise e).
      { unfold BatteryPercentage_icon. rewrite Hst. unfold reading in Hr.
        destruct (ChargingStatus.battery status) as [battery|]; cbn in *;
          [rewrite Hr|]; eexists; reflexivity. }
      destruct Hraise as [e He]. rewrite He.
      split; [discriminate|].
      split; [|discriminate].
      split; [intros _; exists status; split; [reflexivity | exact Hr]|].
      intros _. exists e. reflexivity.
  - unfold BatteryPercentage_icon, ChargeType_icon, ChargingState_icon.
    rewrite Hst.
    split; [intros name [= <-]; reflexivity|].
    split; [|intros _; repeat split].
    split; [intros [e He]; discriminate | intros (st & H & _); discriminate].
Qed.

Lemma dynamic_icons_valid_witness :
  (exists name, icon ChargeType bare_entity = Ok name /\ is_icon_ref name = true)
  /\ is_icon_ref "mdi:battery-outline" = true
  /\ (exists e, icon BatteryPercentage (status_entity status_without_percent)
                = Raise e)
  /\ icon BatteryPercentage bare_entity = Ok "mdi:battery-outline"
  /\ icon ChargeType bare_entity = Ok "mdi:ev-plug-type2"
  /\ icon ChargingState bare_entity = Ok "mdi:power-plug".
Proof.
  destruct (dynamic_icons_valid bare_entity) as (Href & Hbat & _ & Hnone).
  destruct (dynamic_icons_valid (status_entity status_without_percent))
    as (_ & _ & Hraise & _).
  split; [apply Href; left; reflexivity|].
  split; [apply Hbat; reflexivity|].
  split; [|apply Hnone; reflexivity].
  apply Hraise. exists status_without_percent. split; reflexivity.
Defined.

(** ** Further properties of the config flow *)

Lemma validate_input_Ok_inv connect data :
  validate_input connect data = Ok () ->
  exists email password,
    data !! "email" = Some email
    /\ data !! "password" = Some password
    /\ connect email password = Ok ().
Proof.
  unfold validate_input, getitem.
  destruct (data !! "email") as [email|]; [|discriminate].
  destruct (data !! "password") as [password|]; [|discriminate].
  cbn. intros H. exists email, password. repeat split. exact H.
Qed.

Lemma validate_input_Raise_inv connect data e :
  validate_input connect data = Raise e ->
  (e = KeyError /\ (data !! "email" = None \/ data !! "password" = None))
  \/ exists email password,
       data !! "email" = Some email
       /\ data !! "password" = Some password
       /\ connect email password = Raise e.
Proof.
  unfold validate_input, getitem.
  destruct (data !! "email") as [email|]; cbn.
  - destruct (data !! "password") as [password|]; cbn.
    + intros H. right. exists email, password. repeat split. exact H.
    + intros [= <-]. left. split; [reflexivity | right; reflexivity].
  - intros [= <-]. left. split; [reflexivity | left; reflexivity].
Qed.

(** X8: an input without the "email" or the "password" key never reaches
    the backend: [validate_input] raises [KeyError] whatever [connect]
    would answer, and [async_step_user] shows the form with the code
    "unknown" instead of creating an entry. *)
Theorem validate_input_missing_key connect data :
  data !! "email" = None \/ data !! "password" = None ->
  validate_input connect data = Raise KeyError
  /\ async_step_user connect (Some data)
     = Ok (async_show_form "user" (Some {["base" := "unknown"]}) None).
Proof.
  intros H.
  assert (Hv : validate_input connect data = Raise KeyError).
  { unfold validate_input, getitem.
    destruct H as [H | H]; rewrite H; [reflexivity|].
    destruct (data !! "email"); reflexivity. }
  split; [exact Hv|]. unfold async_step_user. rewrite Hv. reflexivity.
Qed.

Lemma validate_input_missing_key_witness :
  validate_input (backend (Ok ())) {["email" := "driver@example.org"]}
    = Raise KeyError
  /\ async_step_user (backend (Ok ())) (Some {["email" := "driver@example.org"]})
     = Ok (async_show_form "user" (Some {["base" := "unknown"]}) None).
Proof.
  apply (validate_input_missing_key (backend (Ok ()))
           {["email" := "driver@example.org"]}).
  right. reflexivity.
Defined.

(** X9: [async_step_user] lets no [Exception] escape: if the step raises,
    the input held both keys and the exception is one that [connect]
    raised and that is not an [Exception] (a cancellation). *)
Theorem async_step_user_raises_only connect user_input e :
  async_step_user connect user_input = Raise e ->
  is_Exception e = false
  /\ exists data email password,
       user_input = Some data
       /\ data !! "email" = Some email
       /\ data !! "password" = Some password
       /\ connect email password = Raise e.
Proof.
  unfold async_step_user.
  destruct user_input as [data|]; [|discriminate].
  destruct (validate_input connect data) as [[]|e'] eqn:Hv.
  - apply validate_input_Ok_inv in Hv as (email & password & He & _ & _).
    unfold getitem. rewrite He. discriminate.
  - intros H.
    assert (Hs : is_Exception e' = false /\ e' = e).
    { destruct e'; try discriminate. cbn in H. injection H as <-. split; reflexivity. }
    destruct Hs as [Hex <-]. split; [exact Hex|].
    apply validate_input_Raise_inv in Hv as [[-> _] | (email & password & He & Hp & Hc)];
      [discriminate|].
    exists data, email, password. repeat split; assumption.
Qed.

Lemma async_step_user_raises_only_witness :
  is_Exception (BaseExceptionOnly "CancelledError") = false
  /\ exists data email password,
       Some (sample_input "secret") = Some data
       /\ data !! "email" = Some email
       /\ data !! "password" = Some password
       /\ backend (Raise (BaseExceptionOnly "CancelledError")) email password
          = Raise (BaseExceptionOnly "CancelledError").
Proof.
  apply (async_step_user_raises_only
           (backend (Raise (BaseExceptionOnly "CancelledError")))
           (Some (sample_input "secret"))).
  reflexivity.
Defined.

(** X10: an entry is created only from an accepted login: if
    [async_step_user] creates an entry, then [connect] was given the
    input's email and password and returned, the title is that email and
    the stored data is the input unchanged. *)
Theorem async_step_user_create_entry_inv connect user_input title stored :
  async_step_user connect user_input = Ok (async_create_entry title stored) ->
  user_input = Some stored
  /\ stored !! "email" = Some title
  /\ exists password,
       stored !! "password" = Some password
       /\ connect title password = Ok ().
Proof.
  unfold async_step_user.
  destruct user_input as [data|]; [|discriminate].
  destruct (validate_input connect data) as [[]|e] eqn:Hv.
  - apply validate_input_Ok_inv in Hv as (email & password & He & Hp & Hc).
    unfold getitem. rewrite He. cbn. intros [= <- <-].
    split; [reflexivity|]. split; [exact He|].
    exists password. split; assumption.
  - destruct e; cbn; discriminate.
Qed.

Lemma async_step_user_create_entry_inv_witness :
  Some (sample_input "secret") = Some (sample_input "secret")
  /\ sample_input "secret" !! "email" = Some "driver@example.org"
  /\ exists password,
       sample_input "secret" !! "password" = Some password
       /\ backend (Ok ()) "driver@example.org" password = Ok ().
Proof.
  apply (async_step_user_create_entry_inv (backend (Ok ()))
           (Some (sample_input "secret"))).
  reflexivity.
Defined.

(** X11: every form that [async_step_user] shows after a submission is
    the "user" form with exactly one error, under the key "base", and
    the error is one of the three codes. *)
Theorem async_step_user_form_inv connect data step_id errors placeholders :
  async_step_user connect (Some data)
    = Ok (async_show_form step_id errors placeholders) ->
  step_id = "user"
  /\ placeholders = None
  /\ exists code, In code error_codes /\ errors = Some {["base" := code]}.
Proof.
  unfold async_step_user.
  destruct (validate_input connect data) as [[]|e] eqn:Hv.
  - apply validate_input_Ok_inv in Hv as (email & _ & He & _ & _).
    unfold getitem. rewrite He. discriminate.
  - destruct e; cbn; try discriminate; intros [= <- <- <-];
      (split; [reflexivity|]); (split; [reflexivity|]);
      eexists; (split; [|reflexivity]); cbn; tauto.
Qed.

Lemma async_step_user_form_inv_witness :
  "user" = "user"
  /\ (None : option (gmap string string)) = None
  /\ exists code, In code error_codes
                  /\ Some ({["base" := "cannot_connect"]} : gmap string string)
                     = Some {["base" := code]}.
Proof.
  apply (async_step_user_form_inv (backend (Raise CannotConnect))
           (sample_input "secret")).
  reflexivity.
Defined.

(** X12: a reauth submission ends in one of three ways only: it raises,
    it returns [None], or it asks the host to update and reload the entry
    held in [self.reauth_entry] with the submitted data, after a
    validation that succeeded.  It never creates an entry and never
    shows a form. *)
Theorem reauth_confirm_submission_outcomes connect self user_input :
  let outcome := snd (_async_step_reauth_confirm connect self (Some user_input)) in
  (exists e, outcome = Raise e)
  \/ outcome = Ok None
  \/ exists entry,
       outcome = Ok (Some (async_update_reload_and_abort entry user_input))
       /\ reauth_entry self = Some entry
       /\ validate_input connect user_input = Ok ().
Proof.
  unfold _async_step_reauth_confirm.
  destruct (_reauth_entry self); [|left; eexists; reflexivity].
  destruct (getitem user_input CONF_PASSWORD); [|left; eexists; reflexivity].
  destruct (self_attr (_data self)); [|left; eexists; reflexivity].
  destruct (validate_input connect user_input) as [[]|e] eqn:Hv.
  - cbn. destruct (reauth_entry self) as [entry|]; cbn.
    + right; right. exists entry. repeat split.
    + left. eexists. reflexivity.
  - destruct e; cbn; solve [right; left; reflexivity | left; eexists; reflexivity].
Qed.

(** The flow object a reauth submission leaves behind. *)
Lemma reauth_confirm_fst connect self user_input :
  fst (_async_step_reauth_confirm connect self (Some user_input))
  = match _reauth_entry self, user_input !! CONF_PASSWORD, _data self with
    | Some _, Some password, Some stored =>
        {| _reauth_entry := _reauth_entry self;
           _data := Some (<[CONF_PASSWORD := password]> stored);
           reauth_entry := reauth_entry self |}
    | _, _, _ => self
    end.
Proof.
  unfold _async_step_reauth_confirm, getitem, self_attr.
  destruct (_reauth_entry self); [|reflexivity].
  destruct (user_input !! CONF_PASSWORD); [|reflexivity].
  destruct (_data self); [|reflexivity].
  destruct (validate_input connect user_input) as [[]|e]; [reflexivity|].
  destruct e; reflexivity.
Qed.

(** X13: a reauth submission never changes [_reauth_entry] or
    [reauth_entry].  On a flow object without [_data], as the class
    builds it, the submission leaves the object as it is and its result
    does not depend on the backend: it raises before any validation.
    Only on an object that has a [_data] dictionary can the submitted
    password be stored, and then it is the only change. *)
Theorem reauth_confirm_flow_object connect self user_input :
  let after := fst (_async_step_reauth_confirm connect self (Some user_input)) in
  _reauth_entry after = _reauth_entry self
  /\ reauth_entry after = reauth_entry self
  /\ (_data self = None ->
      after = self
      /\ (exists e, snd (_async_step_reauth_confirm connect self (Some user_input))
                    = Raise e)
      /\ forall connect',
           _async_step_reauth_confirm connect' self (Some user_input)
           = _async_step_reauth_confirm connect self (Some user_input))
  /\ (forall stored,
      _data self = Some stored ->
      _data after = Some stored
      \/ exists password,
           user_input !! CONF_PASSWORD = Some password
           /\ _data after = Some (<[CONF_PASSWORD := password]> stored)).
Proof.
  cbv zeta. rewrite reauth_confirm_fst.
  split; [destruct (_reauth_entry self) eqn:He, (user_input !! CONF_PASSWORD),
            (_data self); cbn; congruence|].
  split; [destruct (_reauth_entry self) eqn:He, (user_input !! CONF_PASSWORD),
            (_data self); reflexivity|].
  split.
  - intros Hd. rewrite Hd.
    split; [destruct (_reauth_entry self) eqn:He, (user_input !! CONF_PASSWORD);
            reflexivity|].
    unfold _async_step_reauth_confirm, getitem, self_attr. rewrite Hd.
    destruct (_reauth_entry self); [|split; [eexists; reflexivity | reflexivity]].
    destruct (user_input !! CONF_PASSWORD);
      (split; [eexists; reflexivity | reflexivity]).
  - intros stored Hd. rewrite Hd.
    destruct (_reauth_entry self); [|left; exact Hd].
    destruct (user_input !! CONF_PASSWORD) as [password|]; [|left; exact Hd].
    right. exists password. split; reflexivity.
Qed.

Lemma reauth_confirm_flow_object_witness :
  fst (_async_step_reauth_confirm (backend (Raise AuthorizationFailedError))
         reauth_flow (Some (sample_input "wrong"))) = reauth_flow
  /\ exists e,
       snd (_async_step_reauth_confirm (backend (Raise AuthorizationFailedError))
              reauth_flow (Some (sample_input "wrong"))) = Raise e.
Proof.
  destruct (reauth_confirm_flow_object (backend (Raise AuthorizationFailedError))
              reauth_flow (sample_input "wrong")) as (_ & _ & Hnone & _).
  destruct (Hnone eq_refl) as (Hsame & Hraise & _).
  split; [exact Hsame | exact Hraise].
Defined.

(** X14: without an input the reauth step does not reach the backend: its
    result is the same for every backend, and it leaves the flow object
    as it is.  When the flow holds a reauth entry and a user name in
    [_data], the step shows the "reauth_confirm" form with that name as
    its placeholder and no errors; with [_data] lacking the user name it
    raises [KeyError]. *)
Theorem reauth_confirm_prompt connect connect' self :
  _async_step_reauth_confirm connect self None
    = _async_step_reauth_confirm connect' self None
  /\ fst (_async_step_reauth_confirm connect self None) = self
  /\ (forall entry stored,
      _reauth_entry self = Some entry ->
      _data self = Some stored ->
      snd (_async_step_reauth_confirm connect self None)
        = match stored !! CONF_USERNAME with
          | Some username =>
              Ok (Some (async_show_form "reauth_confirm" None
                          (Some {[CONF_USERNAME := username]})))
          | None => Raise KeyError
          end).
Proof.
  unfold _async_step_reauth_confirm.
  split; [reflexivity|].
  split; [destruct (_reauth_entry self); reflexivity|].
  intros entry stored He Hd. rewrite He, Hd. cbn. unfold getitem.
  destruct (stored !! CONF_USERNAME); reflexivity.
Qed.

Lemma reauth_confirm_prompt_witness :
  snd (_async_step_reauth_confirm (backend (Raise CannotConnect))
         reauth_flow_with_data None)
    = match ({[CONF_USERNAME := "driver@example.org"]} : gmap string string)
              !! CONF_USERNAME with
      | Some username =>
          Ok (Some (async_show_form "reauth_confirm" None
                      (Some {[CONF_USERNAME := username]})))
      | None => Raise KeyError
      end.
Proof.
  destruct (reauth_confirm_prompt (backend (Raise CannotConnect)) (backend (Ok ()))
              reauth_flow_with_data) as (_ & _ & Hform).
  apply (Hform sample_entry); reflexivity.
Defined.

(** X15: on a flow object fresh from [__init__], [async_step_reauth]
    always raises, whatever the registry, the context and the backend:
    [KeyError] without an "entry_id" in the context, [AssertionError] for
    an id the registry does not know, and [AttributeError], at
    [self._data], for an id it knows. *)
Theorem async_step_reauth_fresh_raises connect config_entries context :
  let outcome :=
    snd (async_step_reauth connect config_entries context ConfigFlow_init) in
  match context !! "entry_id" with
  | None => outcome = Raise KeyError
  | Some id =>
      match config_entries !! id with
      | None => outcome = Raise AssertionError
      | Some _ => outcome = Raise AttributeError
      end
  end.
Proof.
  unfold async_step_reauth, getitem.
  destruct (context !! "entry_id") as [id|]; [|reflexivity].
  unfold _async_step_reauth_confirm. cbn.
  destruct (config_entries !! id); reflexivity.
Qed.

(** ** Properties of the issue module *)

Lemma append_inj_r (p s t : string) : p +:+ s = p +:+ t -> s = t.
Proof.
  induction p as [|c p IH]; cbn; [trivial|].
  intros [= H]. apply IH, H.
Qed.

(** X16: [_get_issue_id] is injective: different config entries get
    different issue ids. *)
Theorem _get_issue_id_inj entry_id1 entry_id2 :
  _get_issue_id entry_id1 = _get_issue_id entry_id2 -> entry_id1 = entry_id2.
Proof. unfold _get_issue_id. apply append_inj_r. Qed.

Lemma _get_issue_id_inj_witness : "entry-1" = "entry-1".
Proof. apply (_get_issue_id_inj "entry-1" "entry-1"). reflexivity. Defined.

(** X17: deleting the terms-and-conditions issue of an entry undoes its
    creation: afterwards the registry holds no such issue for the entry,
    and if it held none before, the registry is back as it was. *)
Theorem tnc_issue_create_delete DOMAIN hass entry_id :
  async_delete_tnc_issue DOMAIN (async_create_tnc_issue DOMAIN hass entry_id) entry_id
    !! (DOMAIN, _get_issue_id entry_id) = None
  /\ (hass !! (DOMAIN, _get_issue_id entry_id) = None ->
      async_delete_tnc_issue DOMAIN
        (async_create_tnc_issue DOMAIN hass entry_id) entry_id = hass).
Proof.
  unfold async_delete_tnc_issue, async_create_tnc_issue. split.
  - apply lookup_delete_eq.
  - intros Hnone. rewrite delete_insert_eq. apply delete_id, Hnone.
Qed.

Lemma tnc_issue_create_delete_witness :
  async_delete_tnc_issue "myskoda"
    (async_create_tnc_issue "myskoda" ∅ "entry-1") "entry-1" = ∅.
Proof.
  apply (tnc_issue_create_delete "myskoda" ∅ "entry-1"). reflexivity.
Defined.

(** X18: creating or deleting the issue of one entry leaves the issue of
    every other entry as it is, and after the creation the entry's issue
    is present, an error that cannot be fixed and carries the entry id. *)
Theorem tnc_issue_frame DOMAIN hass entry_id other :
  (other <> entry_id ->
   async_create_tnc_issue DOMAIN hass entry_id !! (DOMAIN, _get_issue_id other)
     = hass !! (DOMAIN, _get_issue_id other)
   /\ async_delete_tnc_issue DOMAIN hass entry_id !! (DOMAIN, _get_issue_id other)
     = hass !! (DOMAIN, _get_issue_id other))
  /\ exists issue,
       async_create_tnc_issue DOMAIN hass entry_id !! (DOMAIN, _get_issue_id entry_id)
         = Some issue
       /\ severity issue = ERROR
       /\ is_fixable issue = false
       /\ issue_data issue !! "entry_id" = Some entry_id.
Proof.
  unfold async_create_tnc_issue, async_delete_tnc_issue. split.
  - intros Hne.
    assert (Hkey : (DOMAIN, _get_issue_id entry_id) <> (DOMAIN, _get_issue_id other)).
    { intros [= H]. unfold _get_issue_id in H. apply append_inj_r in H. congruence. }
    split; [apply lookup_insert_ne, Hkey | apply lookup_delete_ne, Hkey].
  - eexists. split; [apply lookup_insert_eq|].
    cbn. repeat split.
Qed.

Lemma tnc_issue_frame_witness :
  async_create_tnc_issue "myskoda" ∅ "entry-1"
    !! ("myskoda", _get_issue_id "entry-2")
    = (∅ : gmap (string * string) Issue) !! ("myskoda", _get_issue_id "entry-2")
  /\ async_delete_tnc_issue "myskoda" ∅ "entry-1"
       !! ("myskoda", _get_issue_id "entry-2")
     = (∅ : gmap (string * string) Issue) !! ("myskoda", _get_issue_id "entry-2").
Proof.
  destruct (tnc_issue_frame "myskoda" ∅ "entry-1" "entry-2") as [Hframe _].
  apply Hframe. discriminate.
Defined.

(** ** Properties of the platform setup *)

(** X19: the keys of the sensor classes are pairwise different, so no two
    sensors of a vehicle share an id; every class handed to the host at
    setup is one of them, and [InspectionInterval], though defined, is
    not handed over. *)
Theorem sensor_keys_distinct :
  List.NoDup (map key sensors)
  /\ (forall s, In s available_entities -> In s sensors)
  /\ (forall s, In s available_entities -> key s <> key InspectionInterval).
Proof.
  split.
  - cbn. repeat (apply List.NoDup_cons; [cbn; intuition discriminate|]).
    apply List.NoDup_nil.
  - split; intros s Hs; in_cases Hs; cbn; solve [tauto | discriminate].
Qed.

Lemma sensor_keys_distinct_witness :
  In ChargeType sensors /\ key ChargeType <> key InspectionInterval.
Proof.
  destruct sensor_keys_distinct as (_ & Hin & Hkey).
  split; [apply Hin | apply Hkey]; right; left; reflexivity.
Defined.
